(** * hour_tracking_27082025.py: the manager dashboard and the hour log

    A shallow embedding of [HourTrackerApp.show_dashboard],
    [HourTrackerApp.draw_charts], [HourTrackerApp.log_hours],
    [HourTrackerApp._get_existing_names] and [get_employee_filename], with
    the pandas, datetime and os calls they make, and the properties of the
    aggregate report and of the log proved over it.

    Numbers: the [hours] column is a float64 in the program.  Sums are
    modelled with exact rational arithmetic ([Qc]); the value typed into the
    log form keeps the float's special values (see [pyfloat]).

    Exceptions: a call that an exception leaves has the result [None].  The
    dashboard is left by the exception of [pd.to_datetime] on a date cell
    that is no date, the log tab by the [TypeError] of sorting a name list
    that holds a NaN. *)

From Stdlib Require Import ZArith QArith Qcanon Lia String Ascii.
From stdpp Require Import base numbers list sorting gmap.

Local Open Scope Z_scope.

(** ** Python strings *)

(** A Python [str] is a sequence of Unicode code points. *)
Abbreviation pystr := (list N).

Definition str (s : string) : pystr := N_of_ascii <$> list_ascii_of_string s.

Module Py.

(** [str.isspace] for one character, the set [str.strip()] removes. *)
Definition isspace (c : N) : bool :=
  ((9 <=? c) && (c <=? 13) || (28 <=? c) && (c <=? 32) ||
   (c =? 133) || (c =? 160) || (c =? 5760) ||
   (8192 <=? c) && (c <=? 8202) || (c =? 8232) || (c =? 8233) ||
   (c =? 8239) || (c =? 8287) || (c =? 12288))%N.

Fixpoint lstrip (s : pystr) : pystr :=
  match s with
  | c :: s' => if isspace c then lstrip s' else s
  | [] => []
  end.

Definition rstrip (s : pystr) : pystr := rev (lstrip (rev s)).

(** [s.strip()] *)
Definition strip (s : pystr) : pystr := rstrip (lstrip s).

(** [s.replace(" ", "_")]: a one-character pattern. *)
Definition replace1 (old new : N) (s : pystr) : pystr :=
  (λ c, if (c =? old)%N then new else c) <$> s.

(** [s.lower()] on a string of ASCII characters. *)
Definition lower_ascii (s : pystr) : pystr :=
  (λ c, if ((65 <=? c) && (c <=? 90))%N then (c + 32)%N else c) <$> s.

(** [s.encode('ascii', 'ignore').decode('ascii')] *)
Definition encode_ascii_ignore (s : pystr) : pystr :=
  filter (λ c, (c < 128)%N) s.

Fixpoint startswith (p s : pystr) : bool :=
  match p, s with
  | [], _ => true
  | a :: p', b :: s' => (a =? b)%N && startswith p' s'
  | _ :: _, [] => false
  end.

(** [s.endswith(suffix)] *)
Definition endswith (s suffix : pystr) : bool :=
  startswith (rev suffix) (rev s).

(** [a <= b] on [str]: code points compared left to right, a proper prefix
    is smaller. *)
Fixpoint str_leb (a b : pystr) : bool :=
  match a, b with
  | [], _ => true
  | _ :: _, [] => false
  | x :: a', y :: b' =>
      if (x <? y)%N then true
      else if (y <? x)%N then false
      else str_leb a' b'
  end.

Definition str_le (a b : pystr) : Prop := str_leb a b = true.

Global Instance str_le_dec : RelDecision str_le.
Proof. intros a b. unfold str_le. apply _. Defined.

(** [sorted(l)] and [l.sort()] on a list of [str] and NaN ([None], the
    float that a missing cell is read as): texts are put in order; NaNs
    alone stay as they are, each comparison between them being false; a
    text beside a NaN makes the comparison raise [TypeError] ([None]). *)
Definition sorted (l : list (option pystr)) : option (list (option pystr)) :=
  let strs := omap id l in
  if bool_decide (length strs = length l)
  then Some (Some <$> merge_sort str_le strs)
  else if bool_decide (strs = []) then Some l
  else None.

(** [os.path.join(a, b)] of posixpath, two components. *)
Definition path_join (a b : pystr) : pystr :=
  if startswith (str "/") b then b
  else if bool_decide (a = []) || endswith a (str "/") then a ++ b
  else a ++ str "/" ++ b.

(** *** float *)

(** A Python [float]: a finite double (its exact value; [-0.0] is [0]),
    an infinity, or a NaN. *)
Inductive pyfloat :=
| Finite (q : Qc)
| PosInf
| NegInf
| NaN.

(** [x <= 0] *)
Definition float_le0 (x : pyfloat) : bool :=
  match x with
  | Finite q => bool_decide (q ≤ 0)%Qc
  | NegInf => true
  | PosInf => false
  | NaN => false
  end.

(** [x > 0] *)
Definition float_gt0 (x : pyfloat) : bool :=
  match x with
  | Finite q => bool_decide (0 < q)%Qc
  | PosInf => true
  | NegInf => false
  | NaN => false
  end.

End Py.

(** ** Calendar dates and pandas timestamps *)

Module Calendar.

(** Day number of a proleptic Gregorian date, counted from 1970-01-01,
    what parsing a ["YYYY-MM-DD"] cell yields in days. *)
Definition days_from_civil (y m d : Z) : Z :=
  let y' := if m <=? 2 then y - 1 else y in
  let era := y' / 400 in
  let yoe := y' - era * 400 in
  let mp := if 2 <? m then m - 3 else m + 9 in
  let doy := (153 * mp + 2) / 5 + d - 1 in
  let doe := yoe * 365 + yoe / 4 - yoe / 100 + doy in
  era * 146097 + doe - 719468.

(** The inverse: year, month and day of a day number. *)
Definition civil_from_days (z : Z) : Z * Z * Z :=
  let z' := z + 719468 in
  let era := z' / 146097 in
  let doe := z' - era * 146097 in
  let yoe := (doe - doe / 1460 + doe / 36524 - doe / 146096) / 365 in
  let doy := doe - (365 * yoe + yoe / 4 - yoe / 100) in
  let mp := (5 * doy + 2) / 153 in
  let d := doy - (153 * mp + 2) / 5 + 1 in
  let m := if mp <? 10 then mp + 3 else mp - 9 in
  let y := yoe + era * 400 in
  (if m <=? 2 then y + 1 else y, m, d).

End Calendar.

(** What [resample('W-MON', label='left')] computes inside pandas
    ([pandas/core/resample.py], [TimeGrouper]).  For a weekly frequency the
    side [closed] defaults to ["right"]; the call sets only [label], so the
    bins are closed on the right and labelled by their left edge. *)
Module Pandas.

(** A [Timestamp]: nanoseconds since 1970-01-01T00:00. *)
Abbreviation Timestamp := Z (only parsing).

Definition NS_PER_DAY : Z := 86400000000000.

(** [pd.to_datetime] of a date: midnight of that day. *)
Definition to_datetime (day : Z) : Timestamp := day * NS_PER_DAY.

(** [Timestamp.normalize()]: midnight of the same day. *)
Definition normalize (t : Timestamp) : Timestamp := t - t mod NS_PER_DAY.

(** [Timestamp.weekday()]: Monday is 0; 1970-01-01 was a Thursday. *)
Definition weekday (t : Timestamp) : Z := (t / NS_PER_DAY + 3) mod 7.

Definition MON : Z := 0.

(** [other + Week(n, weekday=wd)], [Week._apply]: a timestamp off the
    anchor is first rolled forward to it, which uses up one step of a
    positive [n]. *)
Definition Week_apply (n wd : Z) (other : Timestamp) : Timestamp :=
  let otherDay := weekday other in
  if otherDay =? wd then other + n * 7 * NS_PER_DAY
  else
    let other' := other + ((wd - otherDay) mod 7) * NS_PER_DAY in
    let k := if 0 <? n then n - 1 else n in
    other' + k * 7 * NS_PER_DAY.

(** [_get_timestamp_range_edges(first, last, freq, closed="right")] for a
    frequency that is not a Tick: [first - freq] and [last + freq] of the
    normalized ends. *)
Definition get_timestamp_range_edges (first last : Timestamp)
  : Timestamp * Timestamp :=
  (Week_apply (-1) MON (normalize first), Week_apply 1 MON (normalize last)).

(** [date_range(start, end, freq="W-MON")] for [start] on the anchor:
    [start], [start + 1 week], ... up to [end]. *)
Definition date_range (start end_ : Timestamp) : list Timestamp :=
  (λ i, start + Z.of_nat i * (7 * NS_PER_DAY))
    <$> seq 0 (Z.to_nat ((end_ - start) / (7 * NS_PER_DAY) + 1)).

(** [l[-2]] *)
Definition second_last (l : list Z) : option Z :=
  match rev l with
  | _ :: e :: _ => Some e
  | _ => None
  end.

(** [TimeGrouper._adjust_bin_edges] for a weekly frequency closed on the
    right: every edge moves to the last nanosecond of its day, and the last
    bin goes when the edge before it already lies past the data. *)
Definition adjust_bin_edges (binner : list Timestamp) (ax_max : Timestamp)
  : list Timestamp * list Timestamp :=
  let bin_edges := (λ e, e + NS_PER_DAY - 1) <$> binner in
  match second_last bin_edges with
  | Some e =>
      if ax_max <? e then (removelast binner, removelast bin_edges)
      else (binner, bin_edges)
  | None => (binner, bin_edges)
  end.

Definition list_min (x : Z) (l : list Z) : Z := foldr Z.min x l.
Definition list_max (x : Z) (l : list Z) : Z := foldr Z.max x l.

(** [TimeGrouper._get_time_bins] with [closed="right"], [label="left"]:
    the bins [(edge_i, edge_{i+1}]] with label [binner_i]. *)
Definition get_time_bins (ax : list Timestamp)
  : list (Timestamp * (Timestamp * Timestamp)) :=
  match ax with
  | [] => []
  | t :: ts =>
      let '(first, last) :=
        get_timestamp_range_edges (list_min t ts) (list_max t ts) in
      let binner := date_range first last in
      let '(binner, bin_edges) := adjust_bin_edges binner (list_max t ts) in
      zip binner (zip bin_edges (tail bin_edges))
  end.

(** Membership of a value in a bin closed on the right
    ([generate_bins_dt64] with [closed="right"]). *)
Definition in_bin (bin : Timestamp * Timestamp) (t : Timestamp) : bool :=
  (bin.1 <? t) && (t <=? bin.2).

End Pandas.

(** ** The data frame of hour records *)

(** A cell of the [date] column as [pd.to_datetime] takes it at line 238:
    a date, given by its day number, or a cell on which the call raises
    (text that is no date, such as ["not a date"], or a date outside the
    range of a [Timestamp]). *)
Inductive DateCell :=
| Date (day : Z)
| NotADate.

Global Instance DateCell_eq_dec : EqDecision DateCell.
Proof. solve_decision. Defined.

(** One row of a storage unit, as [pd.read_csv] returns it, for a file with
    the four columns of [CSV_HEADER].  A [name] or [subject] cell is text or
    missing (NaN).  The [hours] cell is a finite number; a cell that is
    missing or ["nan"] is left out of every sum of the report ([skipna]) and
    so stands in the model with the value 0.

    Outside the model: a name or subject column that [pd.read_csv] types as
    numbers or booleans (a file in which every name is all digits), an
    infinite hours cell, an empty date cell, and a file without one of the
    four columns. *)
Record Row := mkRow {
  row_name : option pystr;
  row_date_cell : DateCell;
  row_hours : Qc;
  row_subject : option pystr
}.

Global Instance Row_eq_dec : EqDecision Row.
Proof. solve_decision. Defined.

(** The day of a date cell, read only once line 238 has taken the column. *)
Definition row_date (r : Row) : Z :=
  match row_date_cell r with
  | Date day => day
  | NotADate => 0
  end.

Abbreviation DataFrame := (list Row).

(** [df['hours'].sum()] *)
Definition sum_hours (df : DataFrame) : Qc :=
  foldr (λ r acc, (row_hours r + acc)%Qc) 0%Qc df.

(** [pd.to_datetime(df['date'])] on the date column of a frame: raises
    ([None]) when a cell is no date. *)
Definition is_date (c : DateCell) : bool :=
  match c with
  | Date _ => true
  | NotADate => false
  end.

Definition to_datetime_column (df : DataFrame) : option DataFrame :=
  if forallb (λ r, is_date (row_date_cell r)) df then Some df else None.

(** [pd.concat(frames, ignore_index=True)]: raises [ValueError] when there
    is no frame to concatenate. *)
Definition pd_concat (frames : list DataFrame) : option DataFrame :=
  match frames with
  | [] => None
  | _ => Some (concat frames)
  end.

(** [df.groupby(key)['hours'].sum().reset_index()]: one row per distinct key
    present, keys sorted, rows with a missing key dropped. *)
Definition groupby_sum (key : Row → option pystr) (df : DataFrame)
  : list (pystr * Qc) :=
  (λ k, (k, sum_hours (filter (λ r, key r = Some k) df)))
    <$> merge_sort Py.str_le (remove_dups (omap key df)).

(** [df.set_index('date').resample('W-MON', label='left')['hours'].sum()]
    after [df['date'] = pd.to_datetime(df['date'])]. *)
Definition weekly_hours (df : DataFrame) : list (Z * Qc) :=
  (λ b, (b.1, sum_hours
           (filter (λ r, Pandas.in_bin b.2 (Pandas.to_datetime (row_date r)) = true) df)))
    <$> Pandas.get_time_bins (Pandas.to_datetime ∘ row_date <$> df).

(** [sum] of the value column of a grouped or resampled result. *)
Definition sum_values {K} (l : list (K * Qc)) : Qc :=
  foldr (λ p acc, (p.2 + acc)%Qc) 0%Qc l.

(** ** The report shown on the dashboard *)

(** What one refresh computes: the total of line 240, the two grouped
    tables of lines 241 and 242, and the weekly series [draw_charts] plots
    (line 262), its labels still timestamps. *)
Record AggregateReport := mkReport {
  totalHours : Qc;
  hoursByPerson : list (pystr * Qc);
  hoursBySubject : list (pystr * Qc);
  weeklySeries : list (Z * Qc)
}.

Global Instance AggregateReport_eq_dec : EqDecision AggregateReport.
Proof. solve_decision. Defined.

Definition aggregate (master_df : DataFrame) : AggregateReport :=
  {| totalHours := sum_hours master_df;
     hoursByPerson := groupby_sum row_name master_df;
     hoursBySubject := groupby_sum row_subject master_df;
     weeklySeries := weekly_hours master_df |}.

(** The message boxes the program opens. *)
Inductive Message :=
| NoDataFolderNotFound
| NoDataNoFiles
| NoDataNoValid
| FileReadError (full_path e : pystr)
| InputErrorRequired
| InputErrorDate
| InputErrorPositive
| InputErrorNumber
| Success (hours : Py.pyfloat) (name : pystr)
| FileError (filename : pystr).

(** What [pd.read_csv] does on one file: it raises, or returns a frame,
    whose cells are not checked any further (see [Row]). *)
Inductive ReadResult :=
| ReadRaises (e : pystr)
| Parsed (df : DataFrame).

(** A snapshot of the storage as [show_dashboard] sees it: [None] when the
    data folder does not exist ([FileNotFoundError]), else the names
    [os.listdir] returns, in its order, each with what reading that file
    gives. *)
Abbreviation Storage := (option (list (pystr * ReadResult))).

(** The dashboard widgets: [None] before the first successful refresh (label
    "N/A", empty tables, no chart), else the report on display. *)
Abbreviation Dashboard := (option AggregateReport).

(** A file on disk as [csv.writer] leaves it: rows of cells. *)
Inductive Cell :=
| CellStr (s : pystr)
| CellFloat (x : Py.pyfloat).

Abbreviation CsvRow := (list Cell).

Definition CSV_HEADER : CsvRow :=
  CellStr <$> [str "name"; str "date"; str "hours"; str "subject"].

(** A [datetime] without its time of day. *)
Record datetime := mkDate { year : N; month : N; day : N }.

Definition digit (n : N) : N := (48 + n mod 10)%N.

(** The directive [%Y] of [datetime.strftime]: the year as the C library
    prints it (glibc; the model is the POSIX one throughout, as for
    [os.path]), a decimal number without leading zeros, so with fewer than
    four digits below the year 1000.  A [datetime] keeps its year between
    1 and 9999. *)
Definition year_digits (y : N) : pystr :=
  if (y <? 10)%N then [digit y]
  else if (y <? 100)%N then [digit (y / 10); digit y]
  else if (y <? 1000)%N then [digit (y / 100); digit (y / 10); digit y]
  else [digit (y / 1000); digit (y / 100); digit (y / 10); digit y].

(** The directives [%m] and [%d]: two digits. *)
Definition two_digits (n : N) : pystr := [digit (n / 10); digit n].

(** [date_obj.strftime("%Y-%m-%d")] *)
Definition strftime_ymd (d : datetime) : pystr :=
  year_digits (year d) ++ [45%N] ++ two_digits (month d)
    ++ [45%N] ++ two_digits (day d).

(** [index.strftime('%Y-%m-%d')] for one label of a [DatetimeIndex].  A
    [Timestamp] lies between the years 1677 and 2262, so the year has four
    digits. *)
Definition label_strftime (t : Z) : pystr :=
  let '(y, m, d) := Calendar.civil_from_days (t / Pandas.NS_PER_DAY) in
  [digit (Z.to_N y / 1000); digit (Z.to_N y / 100); digit (Z.to_N y / 10);
   digit (Z.to_N y); 45%N]
  ++ two_digits (Z.to_N m) ++ [45%N] ++ two_digits (Z.to_N d).

(** The bars of the chart: the weekly series with its labels as text
    (lines 262 and 263). *)
Definition weekly_bars (df : DataFrame) : list (pystr * Qc) :=
  (λ entry, (label_strftime entry.1, entry.2)) <$> weekly_hours df.

(** The entry widgets of the log tab when the button is pressed. *)
Record LogForm := mkForm {
  name_combobox : pystr;
  date_entry : pystr;
  hours_entry : pystr;
  subject_combobox : pystr
}.

Section HourTrackerApp.

(** [DATA_FOLDER], which depends on where the script is installed. *)
Variable DATA_FOLDER : pystr.
(** [unicodedata.normalize('NFD', ·)] *)
Variable nfd : pystr → pystr.
(** [datetime.strptime(·, "%d-%m-%Y")]; [None] for [ValueError]. *)
Variable strptime : pystr → option datetime.
(** [float(·)]; [None] for [ValueError]. *)
Variable float : pystr → option Py.pyfloat.

Definition get_employee_filename (name : pystr) : pystr :=
  let normalized_name := nfd name in
  let ascii_name := Py.encode_ascii_ignore normalized_name in
  let safe_filename_base :=
    Py.lower_ascii (Py.replace1 32 95 (Py.strip ascii_name)) in
  let filename := safe_filename_base ++ str "_hours.csv" in
  Py.path_join DATA_FOLDER filename.

(** *** show_dashboard *)

(** One turn of the loop of lines 225-231. *)
Definition read_unit (acc : list DataFrame * list Message)
    (unit : pystr * ReadResult) : list DataFrame * list Message :=
  let full_path := Py.path_join DATA_FOLDER unit.1 in
  match unit.2 with
  | Parsed df =>
      if bool_decide (df = []) then acc else (acc.1 ++ [df], acc.2)
  | ReadRaises e => (acc.1, acc.2 ++ [FileReadError full_path e])
  end.

Definition read_units (file_list : list (pystr * ReadResult))
  : list DataFrame * list Message :=
  foldl read_unit ([], []) file_list.

(** The result is [None] if an exception leaves the method, which then has
    drawn nothing, else the dashboard after the call and the message boxes
    shown.  Only the loop of lines 225-231 catches exceptions: the
    conversion of the date column at line 238 is outside it.  The result
    tells what lines 213-252 compute and hand to the widgets; the plotting
    calls of [draw_charts] (matplotlib) are not modelled. *)
Definition show_dashboard (storage : Storage) (ui : Dashboard)
  : option (Dashboard * list Message) :=
  match storage with
  | None => Some (ui, [NoDataFolderNotFound])
  | Some listing =>
      let file_list :=
        filter (λ f, Py.endswith f.1 (str "_hours.csv") = true) listing in
      if bool_decide (file_list = []) then Some (ui, [NoDataNoFiles])
      else
        let '(all_data, shown) := read_units file_list in
        if bool_decide (all_data = []) then Some (ui, shown ++ [NoDataNoValid])
        else
          master_df ← pd_concat all_data;
          master_df ← to_datetime_column master_df;
          Some (Some (aggregate master_df), shown)
  end.

(** *** log_hours *)

(** [all([...])] on strings: none is empty. *)
Definition all_nonempty (l : list pystr) : bool :=
  forallb (λ s, negb (bool_decide (s = []))) l.

(** The files are a map from path to rows; [can_open] tells whether
    [open(filename, 'a')] succeeds.  The list of names offered by the name
    box, which the method updates at lines 167-170, is followed by
    [log_hours_names]. *)
Definition log_hours (form : LogForm) (can_open : bool)
    (files : gmap pystr (list CsvRow))
  : gmap pystr (list CsvRow) * Message :=
  let name := Py.strip (name_combobox form) in
  let date_str := Py.strip (date_entry form) in
  let hours_str := Py.strip (hours_entry form) in
  let subject := subject_combobox form in
  if negb (all_nonempty [name; date_str; hours_str; subject])
  then (files, InputErrorRequired)
  else
    match strptime date_str with
    | None => (files, InputErrorDate)
    | Some date_obj =>
        match float hours_str with
        | None => (files, InputErrorNumber)
        | Some hours =>
            if Py.float_le0 hours then (files, InputErrorPositive)
            else
              let filename := get_employee_filename name in
              let file_exists := bool_decide (is_Some (files !! filename)) in
              let date_to_save := strftime_ymd date_obj in
              if can_open then
                let header := if file_exists then [] else [CSV_HEADER] in
                let row := [CellStr name; CellStr date_to_save;
                            CellFloat hours; CellStr subject] in
                (<[filename := default [] (files !! filename) ++ header ++ [row]]> files,
                 Success hours name)
              else (files, FileError filename)
        end
    end.

(** A session of the log tab: the button pressed once per element. *)
Definition log_session (calls : list (LogForm * bool))
    (files : gmap pystr (list CsvRow)) : gmap pystr (list CsvRow) :=
  foldl (λ fs call, (log_hours call.1 call.2 fs).1) files calls.

End HourTrackerApp.

(** * Notions used in the statements *)

(** Proofs by evaluation of a decidable statement. *)
Ltac by_evaluation := apply (bool_decide_eq_true_1 _); vm_compute; reflexivity.

(** ** Groups and weeks *)

(** Sum per class over a list of classes. *)
Definition sum_per_class {K} `{EqDecision K}
    (c : Row → K) (ks : list K) (df : DataFrame) : Qc :=
  foldr (λ k acc, (sum_hours (filter (λ r, c r = k) df) + acc)%Qc) 0%Qc ks.

(** The index of the grouped result. *)
Definition group_keys (key : Row → option pystr) (df : DataFrame) : list pystr :=
  merge_sort Py.str_le (remove_dups (omap key df)).

(** The day number of the Monday strictly before day [d]: [d - 7] when [d]
    is itself a Monday. *)
Definition monday_before (d : Z) : Z := d - 1 - (d + 2) mod 7.

(** The bin that [get_time_bins] makes for the week labelled [M]. *)
Definition week_bin (M : Z) : Z * (Z * Z) :=
  (Pandas.to_datetime M,
   (Pandas.to_datetime M + Pandas.NS_PER_DAY - 1,
    Pandas.to_datetime (M + 7) + Pandas.NS_PER_DAY - 1)).

(** The labels from the week of day [mn] to the week of day [mx]. *)
Definition week_starts (mn mx : Z) : list Z :=
  (λ i, monday_before mn + 7 * Z.of_nat i)
    <$> seq 0 (S (Z.to_nat ((monday_before mx - monday_before mn) / 7))).

(** The rows that the entry labelled [L] sums: those dated after the label
    and at most seven days after it. *)
Definition week_rows (L : Z) (df : DataFrame) : DataFrame :=
  filter (λ r, L < Pandas.to_datetime (row_date r) ≤ L + 7 * Pandas.NS_PER_DAY) df.

(** The first and last day of the date column. *)
Definition first_day (r : Row) (rs : DataFrame) : Z :=
  Pandas.list_min (row_date r) (row_date <$> rs).
Definition last_day (r : Row) (rs : DataFrame) : Z :=
  Pandas.list_max (row_date r) (row_date <$> rs).

(** The rows dated from the label of an entry to seven days after it, both
    ends included: the week the label starts and the Monday after it. *)
Definition week_span (L : Z) (df : DataFrame) : DataFrame :=
  filter (λ r, L ≤ Pandas.to_datetime (row_date r) ≤ L + 7 * Pandas.NS_PER_DAY) df.

(** The reading of C2 in the specification: every entry of the series has a
    record in its week. *)
Definition no_zero_filling (df : DataFrame) : Prop :=
  ∀ L h, (L, h) ∈ weekly_hours df → week_span L df ≠ [].

(** ** Storage units *)

(** The storage units of a listing: the files [show_dashboard] reads. *)
Definition storage_units (listing : list (pystr * ReadResult))
  : list (pystr * ReadResult) :=
  filter (λ f, Py.endswith f.1 (str "_hours.csv") = true) listing.

(** The records a unit contributes: none when it cannot be read. *)
Definition unit_records (u : pystr * ReadResult) : DataFrame :=
  match u.2 with
  | Parsed df => df
  | ReadRaises _ => []
  end.

(** All records of a snapshot, unit after unit. *)
Definition merged_records (storage : Storage) : DataFrame :=
  match storage with
  | None => []
  | Some listing => concat (unit_records <$> storage_units listing)
  end.

(** The frame the loop keeps for a unit, and the warning it shows. *)
Definition kept_frame (u : pystr * ReadResult) : option DataFrame :=
  match u.2 with
  | Parsed df => if bool_decide (df = []) then None else Some df
  | ReadRaises _ => None
  end.

Definition read_warning (DATA_FOLDER : pystr) (u : pystr * ReadResult)
  : option Message :=
  match u.2 with
  | Parsed _ => None
  | ReadRaises e => Some (FileReadError (Py.path_join DATA_FOLDER u.1) e)
  end.

(** Every date cell of the frame is a date, so that line 238 takes the
    column. *)
Definition dates_parse (df : DataFrame) : Prop :=
  Forall (λ r, is_date (row_date_cell r) = true) df.

(** Valid records in the sense of the specification: each has a person, a
    date, hours greater than 0 and a subject. *)
Definition valid_records (df : DataFrame) : Prop :=
  Forall (λ r, is_Some (row_name r) ∧ is_date (row_date_cell r) = true
               ∧ (0 < row_hours r)%Qc ∧ is_Some (row_subject r)) df.

(** The dashboard after a refresh that returns: unchanged without
    records. *)
Definition dashboard_after (storage : Storage) (ui : Dashboard) : Dashboard :=
  if bool_decide (merged_records storage = []) then ui
  else Some (aggregate (merged_records storage)).

(** A grouped table that reflects the records: every key that occurs is
    listed once, with the sum of the hours of its records. *)
Definition table_of (key : Row → option pystr) (table : list (pystr * Qc))
    (records : DataFrame) : Prop :=
  NoDup table.*1
  ∧ ∀ k h, (k, h) ∈ table
      ↔ (∃ r, r ∈ records ∧ key r = Some k)
        ∧ h = sum_hours (filter (λ r, key r = Some k) records).

(** A report that reflects exactly the records of a frame: the total is the
    sum of their hours, the two tables are those of their persons and
    subjects, each weekly entry holds the hours of the records counted in
    its week, and every record is counted in one entry. *)
Definition reflects (report : AggregateReport) (records : DataFrame) : Prop :=
  totalHours report = sum_hours records
  ∧ table_of row_name (hoursByPerson report) records
  ∧ table_of row_subject (hoursBySubject report) records
  ∧ NoDup (weeklySeries report).*1
  ∧ (∀ L h, (L, h) ∈ weeklySeries report → h = sum_hours (week_rows L records))
  ∧ (∀ r, r ∈ records →
       ∃ L, L ∈ (weeklySeries report).*1 ∧ r ∈ week_rows L records).

(** The message boxes of a refresh. *)
Definition refresh_messages (DATA_FOLDER : pystr) (storage : Storage)
  : list Message :=
  match storage with
  | None => [NoDataFolderNotFound]
  | Some listing =>
      if bool_decide (storage_units listing = []) then [NoDataNoFiles]
      else omap (read_warning DATA_FOLDER) (storage_units listing)
           ++ (if bool_decide (merged_records storage = [])
               then [NoDataNoValid] else [])
  end.

Definition no_data_message (m : Message) : Prop :=
  m = NoDataFolderNotFound ∨ m = NoDataNoFiles ∨ m = NoDataNoValid.

(** The report C6 expects for empty input. *)
Definition empty_report : AggregateReport :=
  {| totalHours := 0%Qc; hoursByPerson := []; hoursBySubject := [];
     weeklySeries := [] |}.

(** Two listings of one unchanged storage: the same files with the same
    contents, in whatever order [os.listdir] enumerates them. *)
Definition same_snapshot (s1 s2 : Storage) : Prop :=
  match s1, s2 with
  | None, None => True
  | Some l1, Some l2 => l1 ≡ₚ l2
  | _, _ => False
  end.

(** A unit that reads well, as an entry of a listing. *)
Definition parsed_unit (u : pystr * DataFrame) : pystr * ReadResult :=
  (u.1, Parsed u.2).

(** The reading of C5 in the specification: beside one unit that fails, the
    refresh shows a report, and it reflects exactly the records of the
    valid units. *)
Definition failing_unit_is_skipped (DATA_FOLDER : pystr)
    (pre post : list (pystr * DataFrame)) (bad : pystr * ReadResult)
    (ui : Dashboard) : Prop :=
  ∃ report shown,
    show_dashboard DATA_FOLDER
      (Some ((parsed_unit <$> pre) ++ bad :: (parsed_unit <$> post))) ui
    = Some (Some report, shown)
    ∧ reflects report (concat (pre ++ post).*2).

(** How often a record occurs in a frame. *)
Definition occurrences (r : Row) (df : DataFrame) : nat :=
  length (filter (λ r', r' = r) df).

(** ** Files written by the log tab *)

Global Instance pyfloat_eq_dec : EqDecision Py.pyfloat.
Proof. solve_decision. Defined.

Global Instance Cell_eq_dec : EqDecision Cell.
Proof. solve_decision. Defined.

Definition is_data_row (row : CsvRow) : Prop :=
  ∃ name date_obj hours subject,
    row = [CellStr name; CellStr (strftime_ymd date_obj);
           CellFloat hours; CellStr subject].




(** ** The library calls on ASCII text

    [log_hours] is modelled over any [strptime], [float] and NFD
    normalization.  To run it, these are the three on ASCII input. *)

Module Reference.

Definition is_digit (c : N) : bool := ((48 <=? c) && (c <=? 57))%N.

(** [s.split(sep)] for a one-character separator. *)
Fixpoint split_on (sep : N) (s : pystr) : list pystr :=
  match s with
  | [] => [[]]
  | c :: s' =>
      if (c =? sep)%N then [] :: split_on sep s'
      else match split_on sep s' with
           | w :: ws => (c :: w) :: ws
           | [] => [[c]]
           end
  end.

Fixpoint digits_value (acc : N) (s : pystr) : option N :=
  match s with
  | [] => Some acc
  | c :: s' =>
      if is_digit c then digits_value (10 * acc + (c - 48))%N s' else None
  end.

Definition is_leap (y : N) : bool :=
  ((y mod 4 =? 0) && (negb (y mod 100 =? 0) || (y mod 400 =? 0)))%N.

Definition days_in_month (y m : N) : N :=
  if (m =? 2)%N then (if is_leap y then 29 else 28)%N
  else if ((m =? 4) || (m =? 6) || (m =? 9) || (m =? 11))%N then 30%N
  else 31%N.

(** The directive [%d]: [3[0-1]|[1-2]\d|0[1-9]|[1-9]| [1-9]]. *)
Definition day_field (s : pystr) : option N :=
  match s with
  | [a; b] =>
      if ((a =? 51) && (48 <=? b) && (b <=? 49))%N then Some (30 + (b - 48))%N
      else if ((49 <=? a) && (a <=? 50))%N && is_digit b
      then Some (10 * (a - 48) + (b - 48))%N
      else if (((a =? 48) || (a =? 32)) && (49 <=? b) && (b <=? 57))%N
      then Some (b - 48)%N
      else None
  | [a] => if ((49 <=? a) && (a <=? 57))%N then Some (a - 48)%N else None
  | _ => None
  end.

(** The directive [%m]: [1[0-2]|0[1-9]|[1-9]]. *)
Definition month_field (s : pystr) : option N :=
  match s with
  | [a; b] =>
      if ((a =? 49) && (48 <=? b) && (b <=? 50))%N then Some (10 + (b - 48))%N
      else if ((a =? 48) && (49 <=? b) && (b <=? 57))%N then Some (b - 48)%N
      else None
  | [a] => if ((49 <=? a) && (a <=? 57))%N then Some (a - 48)%N else None
  | _ => None
  end.

(** The directive [%Y]: four digits. *)
Definition year_field (s : pystr) : option N :=
  if bool_decide (length s = 4%nat) then digits_value 0 s else None.

(** [datetime.strptime(s, "%d-%m-%Y")]: the three fields between hyphens,
    then the date checked (year at least 1, day within the month). *)
Definition strptime_dmy (s : pystr) : option datetime :=
  match split_on 45 s with
  | [ds; ms; ys] =>
      d ← day_field ds; m ← month_field ms; y ← year_field ys;
      if ((1 <=? y) && (d <=? days_in_month y m))%N
      then Some (mkDate y m d) else None
  | _ => None
  end.

(** [float(s)] on a sign followed by [nan], [inf], [infinity] (in any case)
    or by a decimal literal without exponent, whose value is kept exactly. *)
Definition float_decimal (s : pystr) : option Py.pyfloat :=
  let '(negative, body) :=
    match s with
    | 43%N :: b => (false, b)
    | 45%N :: b => (true, b)
    | _ => (false, s)
    end in
  let signed := λ q : Qc, Py.Finite (if negative then (- q)%Qc else q) in
  let word := Py.lower_ascii body in
  if bool_decide (word = str "nan") then Some Py.NaN
  else if bool_decide (word = str "inf" ∨ word = str "infinity")
  then Some (if negative then Py.NegInf else Py.PosInf)
  else
    match split_on 46 body with
    | [ip] =>
        if bool_decide (ip = []) then None
        else i ← digits_value 0 ip; Some (signed (Qc_of_Z (Z.of_N i)))
    | [ip; fp] =>
        if bool_decide (ip = [] ∧ fp = []) then None
        else
          i ← digits_value 0 ip; f ← digits_value 0 fp;
          Some (signed (Qc_of_Z (Z.of_N i)
                        + Qc_of_Z (Z.of_N f) / Qc_of_Z (10 ^ Z.of_nat (length fp)))%Qc)
    | _ => None
    end.

(** NFD normalization leaves ASCII text as it is. *)
Definition nfd_ascii (s : pystr) : pystr := s.

End Reference.

(** ** The form YYYY-MM-DD *)

(** Text of the form YYYY-MM-DD: four digits, two digits and two digits
    with a hyphen between them. *)
Definition is_ymd (s : pystr) : bool :=
  match s with
  | [y1; y2; y3; y4; h1; m1; m2; h2; d1; d2] =>
      forallb Reference.is_digit [y1; y2; y3; y4; m1; m2; d1; d2]
      && (h1 =? 45)%N && (h2 =? 45)%N
  | _ => false
  end.

(** The date that text of this form names. *)
Definition read_ymd (s : pystr) : option datetime :=
  match s with
  | [y1; y2; y3; y4; _; m1; m2; _; d1; d2] =>
      y ← Reference.digits_value 0 [y1; y2; y3; y4];
      m ← Reference.digits_value 0 [m1; m2];
      d ← Reference.digits_value 0 [d1; d2];
      Some (mkDate y m d)
  | _ => None
  end.

(** ** Example data *)

Definition day_number (y m d : Z) : Z := Calendar.days_from_civil y m d.

(** The scenario of the specification: 2025-01-06 is a Monday. *)
Definition scenario : DataFrame :=
  [ mkRow (Some (str "Alice")) (Date (day_number 2025 1 6)) (Qc_of_Z 3)
      (Some (str "Meetings"));
    mkRow (Some (str "Alice")) (Date (day_number 2025 1 8)) (Qc_of_Z 2)
      (Some (str "Meetings"));
    mkRow (Some (str "Bob")) (Date (day_number 2025 1 6)) (Qc_of_Z 5)
      (Some (str "Technical Work")) ].

(** Two records two weeks apart: a Tuesday and the Tuesday a fortnight on. *)
Definition gap_dataset : DataFrame :=
  [ mkRow (Some (str "Alice")) (Date (day_number 2025 1 7)) (Qc_of_Z 1)
      (Some (str "Meetings"));
    mkRow (Some (str "Alice")) (Date (day_number 2025 1 21)) (Qc_of_Z 4)
      (Some (str "Meetings")) ].

Definition data_folder : pystr := str "/srv/tracker/hour_tracking_files".

(** Two units that read well and one that does not. *)
Definition alice_unit : pystr * DataFrame :=
  (str "alice_hours.csv",
   [ mkRow (Some (str "Alice")) (Date (day_number 2025 1 6)) (Qc_of_Z 3)
       (Some (str "Meetings"));
     mkRow (Some (str "Alice")) (Date (day_number 2025 1 8)) (Qc_of_Z 2)
       (Some (str "Meetings")) ]).

Definition bob_unit : pystr * DataFrame :=
  (str "bob_hours.csv",
   [ mkRow (Some (str "Bob")) (Date (day_number 2025 1 6)) (Qc_of_Z 5)
       (Some (str "Technical Work")) ]).

Definition corrupt_unit : pystr * ReadResult :=
  (str "carol_hours.csv", ReadRaises (str "Error tokenizing data")).

(** A unit that reads but holds no record (a file with the header row
    only), and a unit that reads with a date cell that is no date. *)
Definition empty_unit : pystr * DataFrame := (str "dave_hours.csv", []).

Definition undated_unit : pystr * DataFrame :=
  (str "erin_hours.csv",
   [ mkRow (Some (str "Erin")) NotADate (Qc_of_Z 4) (Some (str "Meetings")) ]).

(** A form filled in well, and the same with a blank subject. *)
Definition alice_form : LogForm :=
  {| name_combobox := str " Alice "; date_entry := str "06-01-2025";
     hours_entry := str "3.5"; subject_combobox := str "Meetings" |}.


(** A date in the year 999, which [strptime] takes with its four digits. *)
Definition early_year_form : LogForm :=
  {| name_combobox := str "Alice"; date_entry := str "06-01-0999";
     hours_entry := str "3.5"; subject_combobox := str "Meetings" |}.

Definition nan_form : LogForm :=
  {| name_combobox := str "Alice"; date_entry := str "06-01-2025";
     hours_entry := str "nan"; subject_combobox := str "Meetings" |}.

(** The path of Alice's file in the examples. *)
Definition alice_path : pystr :=
  get_employee_filename data_folder Reference.nfd_ascii (str "Alice").

Definition alice_row (hours : Qc) : CsvRow :=
  [CellStr (str "Alice"); CellStr (str "2025-01-06");
   CellFloat (Py.Finite hours); CellStr (str "Meetings")].

(** No file yet. *)
Definition no_files : gmap pystr (list CsvRow) := ∅.

(** * The name box and the rest of the log tab *)

(** The set [names] of lines 74-92: the texts in it, and the number of NaN
    objects.  A NaN is equal to no other object, so the set keeps the NaN
    of every unit that has a missing name cell.  (The number matters only
    when the set holds no text, see [Py.sorted]; the name column of each
    such unit is then all missing and yields a NaN of its own.) *)
Abbreviation NameSet := (gset pystr * nat)%type.

(** [sorted(list(names))] *)
Definition sorted_names (names : NameSet) : option (list (option pystr)) :=
  Py.sorted ((Some <$> elements names.1) ++ replicate names.2 None).

(** One turn of the loop of lines 84-92: the distinct values of the name
    column of a unit that reads and is not empty join the set.  The frames
    of the model have the name column, so the check of line 88 passes. *)
Definition collect_names (names : NameSet) (unit : pystr * ReadResult)
  : NameSet :=
  match unit.2 with
  | Parsed df =>
      if bool_decide (df = []) then names
      else (names.1 ∪ list_to_set (omap row_name df),
            if bool_decide (None ∈ row_name <$> df)
            then S names.2 else names.2)
  | ReadRaises _ => names
  end.

(** [HourTrackerApp._get_existing_names]; [None] when the final [sorted]
    raises. *)
Definition _get_existing_names (storage : Storage)
  : option (list (option pystr)) :=
  match storage with
  | None => Some []
  | Some listing =>
      let file_list :=
        filter (λ f, Py.endswith f.1 (str "_hours.csv") = true) listing in
      if bool_decide (file_list = []) then Some []
      else sorted_names (foldl collect_names (∅, 0%nat) file_list)
  end.

(** Lines 167-170 of [log_hours] on the list behind the name box, which
    [_get_existing_names] made, a list of texts and NaNs: a new name is
    appended and the list sorted.  [None] when [sort] raises [TypeError],
    which leaves [log_hours] (only [IOError] is caught); what the list
    holds after that is not followed. *)
Definition add_existing_name (name : pystr)
    (existing_names : list (option pystr)) : option (list (option pystr)) :=
  if bool_decide (Some name ∈ existing_names) then Some existing_names
  else Py.sorted (existing_names ++ [Some name]).

(** The part of the file name that [get_employee_filename] makes of the
    name. *)
Definition safe_filename_base (nfd : pystr → pystr) (name : pystr) : pystr :=
  Py.lower_ascii (Py.replace1 32 95 (Py.strip (Py.encode_ascii_ignore (nfd name)))).

(** A character of a safe base: ASCII, no space, no capital letter. *)
Definition safe_char (c : N) : Prop :=
  (c < 128 ∧ c ≠ 32 ∧ ¬ (65 ≤ c ≤ 90))%N.

Section LogTab.
Variable DATA_FOLDER : pystr.
Variable nfd : pystr → pystr.
Variable strptime : pystr → option datetime.
Variable float : pystr → option Py.pyfloat.

(** The list behind the name box after one call of [log_hours]; [None]
    when the call is left by the [TypeError] of line 169, after the row is
    written and the success box shown. *)
Definition log_hours_names (form : LogForm) (can_open : bool)
    (files : gmap pystr (list CsvRow)) (existing_names : list (option pystr))
  : option (list (option pystr)) :=
  match (log_hours DATA_FOLDER nfd strptime float form can_open files).2 with
  | Success _ name => add_existing_name name existing_names
  | _ => Some existing_names
  end.

(** The message boxes of a session, and the list behind the name box after
    it, as long as no call is left by an exception. *)
Fixpoint log_session_messages (calls : list (LogForm * bool))
    (files : gmap pystr (list CsvRow)) : list Message :=
  match calls with
  | [] => []
  | call :: rest =>
      let result := log_hours DATA_FOLDER nfd strptime float call.1 call.2 files in
      result.2 :: log_session_messages rest result.1
  end.

Fixpoint log_session_names (calls : list (LogForm * bool))
    (files : gmap pystr (list CsvRow)) (existing_names : list (option pystr))
  : option (list (option pystr)) :=
  match calls with
  | [] => Some existing_names
  | call :: rest =>
      let result := log_hours DATA_FOLDER nfd strptime float call.1 call.2 files in
      existing_names ← log_hours_names call.1 call.2 files existing_names;
      log_session_names rest result.1 existing_names
  end.

(** The successful calls of a session that wrote to [path]. *)
Definition logged_to (path : pystr) (m : Message) : bool :=
  match m with
  | Success _ name =>
      bool_decide (get_employee_filename DATA_FOLDER nfd name = path)
  | _ => false
  end.

End LogTab.

(** All hours positive, as [log_hours] checks of what it writes (it lets
    only ["nan"] and ["inf"] through beside the positive numbers). *)
Definition positive_hours (df : DataFrame) : Prop :=
  Forall (λ r, (0 < row_hours r)%Qc) df.

(** The units of a listing with a missing name cell. *)
Definition nameless_units (units : list (pystr * ReadResult)) : nat :=
  length (filter (λ u, None ∈ row_name <$> unit_records u) units).

(** A name with a slash in front, a name that climbs out of the data
    folder, and units with a missing name cell. *)
Definition slash_name : pystr := str "/tmp/Eve".

Definition climbing_name : pystr := str "../../etc/Eve".

Definition nameless_unit : pystr * DataFrame :=
  (str "na_hours.csv",
   [ mkRow None (Date (day_number 2025 1 7)) (Qc_of_Z 2) (Some (str "Meetings")) ]).

Definition bob_form : LogForm :=
  {| name_combobox := str "Bob"; date_entry := str "07-01-2025";
     hours_entry := str "2"; subject_combobox := str "Meetings" |}.

Global Instance Message_eq_dec : EqDecision Message.
Proof. solve_decision. Defined.

(** Alice's file after one entry, Bob's path, a session of three calls, and
    a file of the data folder that is no storage unit. *)
Definition alice_files : gmap pystr (list CsvRow) :=
  {[ alice_path := [CSV_HEADER; alice_row (Qc_of_Z 7 / Qc_of_Z 2)] ]}.

Definition bob_path : pystr :=
  get_employee_filename data_folder Reference.nfd_ascii (str "Bob").

Definition three_calls : list (LogForm * bool) :=
  [(alice_form, true); (bob_form, true); (alice_form, true)].

Definition notes_file : pystr * ReadResult :=
  (str "notes.txt", ReadRaises (str "Error tokenizing data")).

(** White space only. *)
Definition all_space (s : pystr) : Prop := Forall (λ c, Py.isspace c = true) s.

(** A form with white space put around the name, the date and the hours. *)
Definition padded (form : LogForm) (a1 a2 b1 b2 c1 c2 : pystr) : LogForm :=
  {| name_combobox := a1 ++ name_combobox form ++ a2;
     date_entry := b1 ++ date_entry form ++ b2;
     hours_entry := c1 ++ hours_entry form ++ c2;
     subject_combobox := subject_combobox form |}.

(** * Proofs *)

(** ** Sums of the hours column *)

Section Sums.

Lemma sum_hours_cons r df : sum_hours (r :: df) = (row_hours r + sum_hours df)%Qc.
Proof. reflexivity. Qed.

Lemma sum_hours_Permutation df1 df2 :
  df1 ≡ₚ df2 → sum_hours df1 = sum_hours df2.
Proof.
  induction 1 as [|r l l' _ IH|r1 r2 l|l l' l'' _ IH1 _ IH2].
  - done.
  - by rewrite !sum_hours_cons, IH.
  - rewrite !sum_hours_cons. ring.
  - congruence.
Qed.

(** The rows that satisfy one of two exclusive conditions. *)
Lemma sum_hours_filter_either (P Q : Row → Prop)
    `{∀ r, Decision (P r)} `{∀ r, Decision (Q r)} df :
  (∀ r, P r → Q r → False) →
  (sum_hours (filter P df) + sum_hours (filter Q df))%Qc
  = sum_hours (filter (λ r, P r ∨ Q r) df).
Proof.
  intros Hexcl. induction df as [|r df IH].
  - simpl. by rewrite Qcplus_0_l.
  - rewrite !filter_cons.
    destruct (decide (P r)) as [HP|HP], (decide (Q r)) as [HQ|HQ].
    + destruct (Hexcl r HP HQ).
    + rewrite decide_True by tauto. rewrite !sum_hours_cons, <-IH. ring.
    + rewrite decide_True by tauto. rewrite !sum_hours_cons, <-IH. ring.
    + rewrite decide_False by tauto. done.
Qed.

Lemma sum_hours_filter_False (P : Row → Prop) `{∀ r, Decision (P r)} df :
  (∀ r, r ∈ df → ¬ P r) → sum_hours (filter P df) = 0%Qc.
Proof.
  induction df as [|r df IH]; intros HP; [done|].
  rewrite filter_cons, decide_False by (apply HP; left).
  apply IH. intros r' Hr'. apply HP. by right.
Qed.

Lemma sum_hours_filter_True (P : Row → Prop) `{∀ r, Decision (P r)} df :
  (∀ r, r ∈ df → P r) → sum_hours (filter P df) = sum_hours df.
Proof.
  induction df as [|r df IH]; intros HP; [done|].
  rewrite filter_cons, decide_True by (apply HP; left).
  rewrite !sum_hours_cons, IH; [done|].
  intros r' Hr'. apply HP. by right.
Qed.

Lemma sum_hours_filter_ext (P Q : Row → Prop)
    `{∀ r, Decision (P r)} `{∀ r, Decision (Q r)} df :
  (∀ r, r ∈ df → P r ↔ Q r) →
  sum_hours (filter P df) = sum_hours (filter Q df).
Proof.
  induction df as [|r df IH]; intros HPQ; [done|].
  rewrite !filter_cons.
  assert (P r ↔ Q r) as Hr by (apply HPQ; left).
  assert (sum_hours (filter P df) = sum_hours (filter Q df)) as IH'.
  { apply IH. intros r' Hr'. apply HPQ. by right. }
  destruct (decide (P r)), (decide (Q r)); try tauto;
    by rewrite ?sum_hours_cons, IH'.
Qed.

Context {K : Type} `{EqDecision K}.

Lemma sum_per_class_listed (c : Row → K) ks df :
  NoDup ks →
  sum_per_class c ks df = sum_hours (filter (λ r, c r ∈ ks) df).
Proof.
  induction 1 as [|k ks Hk _ IH]; simpl.
  - symmetry. apply sum_hours_filter_False. intros r _. apply not_elem_of_nil.
  - rewrite IH.
    rewrite (sum_hours_filter_either (λ r, c r = k) (λ r, c r ∈ ks)).
    + apply sum_hours_filter_ext. intros r _. rewrite elem_of_cons. done.
    + intros r <- Hin. done.
Qed.

Lemma sum_per_class_total (c : Row → K) ks df :
  NoDup ks → (∀ r, r ∈ df → c r ∈ ks) →
  sum_per_class c ks df = sum_hours df.
Proof.
  intros Hnd Hall. rewrite sum_per_class_listed by done.
  by apply sum_hours_filter_True.
Qed.

Lemma sum_values_fmap {A} (f : A → K) (g : A → Qc) (l : list A) :
  sum_values ((λ a, (f a, g a)) <$> l) = foldr (λ a acc, (g a + acc)%Qc) 0%Qc l.
Proof.
  induction l as [|a l IH]; [done|].
  rewrite fmap_cons. unfold sum_values in *. simpl. f_equal. exact IH.
Qed.

End Sums.

Lemma foldr_sum_ext {A} (g1 g2 : A → Qc) (l : list A) :
  (∀ a, a ∈ l → g1 a = g2 a) →
  foldr (λ a acc, (g1 a + acc)%Qc) 0%Qc l
  = foldr (λ a acc, (g2 a + acc)%Qc) 0%Qc l.
Proof.
  induction l as [|a l IH]; intros Hg; [done|]. simpl.
  rewrite (Hg a) by left. f_equal. apply IH. intros b Hb. apply Hg. by right.
Qed.


(** ** The order of strings *)

Section StrOrder.
Import Py.

Global Instance str_le_total : Total str_le.
Proof.
  unfold Total, str_le. intros a. induction a as [|x a IH]; intros [|y b]; simpl; auto.
  destruct (N.ltb_spec x y), (N.ltb_spec y x); auto; lia.
Qed.

Global Instance str_le_trans : Transitive str_le.
Proof.
  unfold Transitive, str_le. intros a.
  induction a as [|x a IH]; intros [|y b] [|z c]; simpl; auto; try done.
  destruct (N.ltb_spec x y), (N.ltb_spec y x), (N.ltb_spec y z),
    (N.ltb_spec z y), (N.ltb_spec x z), (N.ltb_spec z x);
    try done; try lia; eauto.
Qed.

Global Instance str_le_antisym : AntiSymm (=) str_le.
Proof.
  unfold AntiSymm, str_le. intros a.
  induction a as [|x a IH]; intros [|y b]; simpl; try done.
  destruct (N.ltb_spec x y), (N.ltb_spec y x); try done; try lia.
  intros Hab Hba. assert (x = y) as -> by lia. f_equal. by apply IH.
Qed.

End StrOrder.

(** ** Grouped sums *)

Section GroupBy.

Variable key : Row → option pystr.

Lemma groupby_sum_keys df :
  groupby_sum key df
  = (λ k, (k, sum_hours (filter (λ r, key r = Some k) df))) <$> group_keys key df.
Proof. reflexivity. Qed.

Lemma group_keys_NoDup df : NoDup (group_keys key df).
Proof.
  unfold group_keys. rewrite merge_sort_Permutation. apply NoDup_remove_dups.
Qed.

Lemma elem_of_group_keys df k :
  k ∈ group_keys key df ↔ ∃ r, r ∈ df ∧ key r = Some k.
Proof.
  unfold group_keys.
  rewrite merge_sort_Permutation, elem_of_remove_dups, list_elem_of_omap.
  done.
Qed.

Lemma group_keys_Sorted df : Sorted Py.str_le (group_keys key df).
Proof. apply (Sorted_merge_sort _). Qed.

Lemma group_keys_Permutation df1 df2 :
  df1 ≡ₚ df2 → group_keys key df1 = group_keys key df2.
Proof.
  intros Hp. apply (Sorted_unique Py.str_le); try apply group_keys_Sorted.
  apply NoDup_Permutation; try apply group_keys_NoDup.
  intros k. rewrite !elem_of_group_keys.
  split; intros (r & Hr & Hk); exists r; split; try done.
  - by rewrite <-Hp.
  - by rewrite Hp.
Qed.

Lemma groupby_sum_Permutation df1 df2 :
  df1 ≡ₚ df2 → groupby_sum key df1 = groupby_sum key df2.
Proof.
  intros Hp. rewrite !groupby_sum_keys, (group_keys_Permutation df1 df2 Hp).
  apply list_fmap_ext. intros _ k _. f_equal.
  apply sum_hours_Permutation. by rewrite Hp.
Qed.

(** The grouped sums add up to the hours of the rows that have a key. *)
Lemma groupby_sum_values df :
  sum_values (groupby_sum key df)
  = sum_hours (filter (λ r, is_Some (key r)) df).
Proof.
  rewrite groupby_sum_keys, (sum_values_fmap id).
  transitivity (sum_per_class key (Some <$> group_keys key df) df).
  { unfold sum_per_class. by rewrite foldr_fmap. }
  rewrite sum_per_class_listed.
  - apply sum_hours_filter_ext. intros r Hr. rewrite list_elem_of_fmap. split.
    + intros (k & -> & _). by eexists.
    + intros [k Hk]. exists k. split; [done|].
      apply elem_of_group_keys. eauto.
  - apply (NoDup_fmap_2 _), group_keys_NoDup.
Qed.

End GroupBy.

(** The key column of a grouped table. *)
Lemma groupby_sum_index (key : Row → option pystr) df :
  (groupby_sum key df).*1 = group_keys key df.
Proof.
  rewrite groupby_sum_keys, <-list_fmap_compose.
  rewrite (list_fmap_ext _ id (group_keys key df)) by done.
  apply list_fmap_id.
Qed.

(** The rows of a grouped table. *)
Lemma groupby_sum_entry (key : Row → option pystr) df k h :
  (k, h) ∈ groupby_sum key df
  ↔ (∃ r, r ∈ df ∧ key r = Some k)
    ∧ h = sum_hours (filter (λ r, key r = Some k) df).
Proof.
  rewrite groupby_sum_keys, list_elem_of_fmap.
  setoid_rewrite elem_of_group_keys. split.
  - intros (k' & [= -> ->] & Hk). done.
  - intros [Hk ->]. by exists k.
Qed.

Lemma groupby_sum_table_of (key : Row → option pystr) df :
  table_of key (groupby_sum key df) df.
Proof.
  split; [rewrite groupby_sum_index; apply group_keys_NoDup|].
  apply groupby_sum_entry.
Qed.

(** ** The weekly bins *)

Section WeeklyBins.
Import Pandas.

Lemma NS_PER_DAY_pos : 0 < NS_PER_DAY.
Proof. reflexivity. Qed.

Lemma to_datetime_add d k : to_datetime d + k * NS_PER_DAY = to_datetime (d + k).
Proof. unfold to_datetime. ring. Qed.

Lemma to_datetime_lt d1 d2 : to_datetime d1 < to_datetime d2 ↔ d1 < d2.
Proof. unfold to_datetime. pose proof NS_PER_DAY_pos. nia. Qed.

Lemma to_datetime_le d1 d2 : to_datetime d1 ≤ to_datetime d2 ↔ d1 ≤ d2.
Proof. unfold to_datetime. pose proof NS_PER_DAY_pos. nia. Qed.

Lemma normalize_to_datetime d : normalize (to_datetime d) = to_datetime d.
Proof. unfold normalize, to_datetime. rewrite Z_mod_mult. lia. Qed.

Lemma weekday_to_datetime d : weekday (to_datetime d) = (d + 3) mod 7.
Proof. unfold weekday, to_datetime. by rewrite Z_div_mult by reflexivity. Qed.

Lemma monday_before_weekday d : (monday_before d + 3) mod 7 = 0.
Proof. unfold monday_before. Z.div_mod_to_equations. lia. Qed.

Lemma monday_before_range d : monday_before d < d ≤ monday_before d + 7.
Proof. unfold monday_before. Z.div_mod_to_equations. lia. Qed.

(** A day lies in the seven days after a Monday exactly when that Monday is
    the one before it. *)
Lemma monday_before_iff M d :
  (M + 3) mod 7 = 0 → (M < d ≤ M + 7 ↔ monday_before d = M).
Proof. unfold monday_before. Z.div_mod_to_equations. lia. Qed.

Lemma monday_before_mono d1 d2 :
  d1 ≤ d2 → monday_before d1 ≤ monday_before d2.
Proof. unfold monday_before. Z.div_mod_to_equations. lia. Qed.

Lemma monday_before_step d1 d2 :
  ∃ k, monday_before d2 - monday_before d1 = 7 * k.
Proof.
  exists ((monday_before d2 - monday_before d1) / 7).
  unfold monday_before. Z.div_mod_to_equations. lia.
Qed.

(** The days from a day that is not a Monday to the next Monday. *)
Lemma roll_forward d :
  (d + 3) mod 7 ≠ 0 → (0 - (d + 3) mod 7) mod 7 = 7 - (d + 3) mod 7.
Proof.
  intros H0. pose proof (Z.mod_pos_bound (d + 3) 7 eq_refl) as Hr.
  symmetry. apply (Z.mod_unique _ _ (-1)); lia.
Qed.

(** [first - freq] *)
Lemma week_apply_back d :
  Week_apply (-1) MON (to_datetime d) = to_datetime (monday_before d).
Proof.
  unfold Week_apply, MON. rewrite weekday_to_datetime.
  destruct (Z.eqb_spec ((d + 3) mod 7) 0) as [H0|H0].
  - replace (-1 * 7 * NS_PER_DAY) with (-7 * NS_PER_DAY) by ring.
    rewrite to_datetime_add. f_equal.
    unfold monday_before. Z.div_mod_to_equations. lia.
  - change (0 <? -1) with false. cbv beta iota zeta.
    rewrite to_datetime_add.
    replace (-1 * 7 * NS_PER_DAY) with (-7 * NS_PER_DAY) by ring.
    rewrite to_datetime_add. f_equal.
    rewrite roll_forward by done.
    unfold monday_before. Z.div_mod_to_equations. lia.
Qed.

(** [last + freq]: the Monday strictly after day [d]. *)
Lemma week_apply_forth d :
  Week_apply 1 MON (to_datetime d)
  = to_datetime (monday_before d + (if (d + 3) mod 7 =? 0 then 14 else 7)).
Proof.
  unfold Week_apply, MON. rewrite weekday_to_datetime.
  destruct (Z.eqb_spec ((d + 3) mod 7) 0) as [H0|H0].
  - replace (1 * 7 * NS_PER_DAY) with (7 * NS_PER_DAY) by ring.
    rewrite to_datetime_add. f_equal.
    unfold monday_before. Z.div_mod_to_equations. lia.
  - change (0 <? 1) with true. cbv beta iota zeta. rewrite to_datetime_add.
    replace ((1 - 1) * 7 * NS_PER_DAY) with (0 * NS_PER_DAY) by ring.
    rewrite to_datetime_add. f_equal.
    rewrite roll_forward by done.
    unfold monday_before. Z.div_mod_to_equations. lia.
Qed.

Lemma date_range_weeks a (k : nat) :
  date_range (to_datetime a) (to_datetime (a + 7 * Z.of_nat k))
  = (λ i, to_datetime (a + 7 * Z.of_nat i)) <$> seq 0 (S k).
Proof.
  unfold date_range.
  replace (to_datetime (a + 7 * Z.of_nat k) - to_datetime a)
    with (Z.of_nat k * (7 * NS_PER_DAY)) by (unfold to_datetime; ring).
  rewrite Z_div_mult by reflexivity.
  replace (Z.to_nat (Z.of_nat k + 1)) with (S k) by lia.
  apply list_fmap_ext. intros _ i _. unfold to_datetime. ring.
Qed.

End WeeklyBins.

(** Lists indexed by [seq], the shape [date_range] builds. *)
Section SeqLists.
Context {A B : Type}.

Lemma removelast_fmap_seq (f : nat → A) n :
  removelast (f <$> seq 0 (S n)) = f <$> seq 0 n.
Proof. rewrite seq_S, fmap_app. simpl. apply removelast_last. Qed.

Lemma rev_fmap_seq_2 (f : nat → A) n :
  rev (f <$> seq 0 (S (S n))) = f (S n) :: f n :: rev (f <$> seq 0 n).
Proof.
  rewrite (seq_S (S n)), (seq_S n), !fmap_app. simpl.
  by rewrite !rev_app_distr.
Qed.

Lemma zip_fmap_seq_tail (f : nat → A) (g : nat → B) s n :
  zip (f <$> seq s (S n)) (zip (g <$> seq s (S n)) (tail (g <$> seq s (S n))))
  = (λ i, (f i, (g i, g (S i)))) <$> seq s n.
Proof.
  revert s. induction n as [|n IH]; intros s; [done|].
  simpl. f_equal. apply (IH (S s)).
Qed.

End SeqLists.

Lemma Sorted_fmap_seq (f : nat → Z) s n :
  (∀ i, f i < f (S i)) → Sorted Z.lt (f <$> seq s n).
Proof.
  intros Hf. revert s. induction n as [|n IH]; intros s; simpl; constructor.
  - apply IH.
  - destruct n; simpl; constructor. apply Hf.
Qed.

Section WeeklySeries.
Import Pandas.

Lemma to_datetime_min a b :
  Z.min (to_datetime a) (to_datetime b) = to_datetime (Z.min a b).
Proof.
  pose proof (to_datetime_le a b). pose proof (to_datetime_le b a).
  destruct (Z.min_spec a b) as [[? ->]|[? ->]]; lia.
Qed.

Lemma to_datetime_max a b :
  Z.max (to_datetime a) (to_datetime b) = to_datetime (Z.max a b).
Proof.
  pose proof (to_datetime_le a b). pose proof (to_datetime_le b a).
  destruct (Z.max_spec a b) as [[? ->]|[? ->]]; lia.
Qed.

Lemma list_min_to_datetime d ds :
  list_min (to_datetime d) (to_datetime <$> ds) = to_datetime (list_min d ds).
Proof.
  unfold list_min. induction ds as [|x ds IH]; [done|].
  rewrite fmap_cons. simpl. by rewrite IH, to_datetime_min.
Qed.

Lemma list_max_to_datetime d ds :
  list_max (to_datetime d) (to_datetime <$> ds) = to_datetime (list_max d ds).
Proof.
  unfold list_max. induction ds as [|x ds IH]; [done|].
  rewrite fmap_cons. simpl. by rewrite IH, to_datetime_max.
Qed.

Lemma list_min_le d ds x : x ∈ d :: ds → list_min d ds ≤ x.
Proof.
  unfold list_min. induction ds as [|y ds IH]; simpl.
  - intros ->%list_elem_of_singleton. lia.
  - rewrite !elem_of_cons. rewrite elem_of_cons in IH.
    intros [->|[->|Hx]]; [specialize (IH (or_introl eq_refl))| |specialize (IH (or_intror Hx))]; lia.
Qed.

Lemma list_max_ge d ds x : x ∈ d :: ds → x ≤ list_max d ds.
Proof.
  unfold list_max. induction ds as [|y ds IH]; simpl.
  - intros ->%list_elem_of_singleton. lia.
  - rewrite !elem_of_cons. rewrite elem_of_cons in IH.
    intros [->|[->|Hx]]; [specialize (IH (or_introl eq_refl))| |specialize (IH (or_intror Hx))]; lia.
Qed.

Lemma list_min_elem d ds : list_min d ds ∈ d :: ds.
Proof.
  unfold list_min. induction ds as [|y ds IH]; simpl; [left|].
  destruct (Z.min_spec y (foldr Z.min d ds)) as [[_ ->]|[_ ->]].
  - right; left.
  - rewrite elem_of_cons in IH. rewrite !elem_of_cons. tauto.
Qed.

Lemma list_max_elem d ds : list_max d ds ∈ d :: ds.
Proof.
  unfold list_max. induction ds as [|y ds IH]; simpl; [left|].
  destruct (Z.max_spec y (foldr Z.max d ds)) as [[_ ->]|[_ ->]].
  - rewrite elem_of_cons in IH. rewrite !elem_of_cons. tauto.
  - right; left.
Qed.

Lemma week_starts_count mn mx :
  mn ≤ mx →
  monday_before mx
  = monday_before mn
    + 7 * Z.of_nat (Z.to_nat ((monday_before mx - monday_before mn) / 7)).
Proof.
  intros Hle. pose proof (monday_before_mono _ _ Hle).
  destruct (monday_before_step mn mx) as [k Hk].
  rewrite Hk, (Z.mul_comm 7 k), Z_div_mult by done. lia.
Qed.

(** The bins of a non-empty date column: one per week from the week of the
    earliest date to the week of the latest. *)
Lemma get_time_bins_weeks d ds :
  get_time_bins (to_datetime <$> d :: ds)
  = week_bin <$> week_starts (list_min d ds) (list_max d ds).
Proof.
  assert (list_min d ds ≤ list_max d ds) as Hle.
  { etrans; [apply list_min_le|apply list_max_ge]; left. }
  unfold get_time_bins. rewrite fmap_cons.
  rewrite list_min_to_datetime, list_max_to_datetime.
  unfold get_timestamp_range_edges.
  rewrite !normalize_to_datetime, week_apply_back, week_apply_forth.
  cbv beta iota zeta.
  unfold week_starts. rewrite <-list_fmap_compose.
  pose proof (week_starts_count _ _ Hle) as HB.
  set (mn := list_min d ds) in *. set (mx := list_max d ds) in *.
  set (n := Z.to_nat ((monday_before mx - monday_before mn) / 7)) in *.
  set (A := monday_before mn) in *.
  set (f := λ i : nat, to_datetime (A + 7 * Z.of_nat i)).
  set (g := λ i : nat, f i + NS_PER_DAY - 1).
  assert (∀ m, (λ e, e + NS_PER_DAY - 1) <$> (f <$> seq 0 m) = g <$> seq 0 m)
    as Hedges by (intros m; by rewrite <-list_fmap_compose).
  assert (zip (f <$> seq 0 (S (S n)))
            (zip (g <$> seq 0 (S (S n))) (tail (g <$> seq 0 (S (S n)))))
          = week_bin ∘ (λ i : nat, A + 7 * Z.of_nat i) <$> seq 0 (S n)) as Hzip.
  { rewrite zip_fmap_seq_tail. apply list_fmap_ext. intros _ i _.
    unfold week_bin, g, f, compose.
    by replace (A + 7 * Z.of_nat (S i)) with (A + 7 * Z.of_nat i + 7) by lia. }
  destruct (Z.eqb_spec ((mx + 3) mod 7) 0) as [Hmon|Hmon].
  - replace (monday_before mx + 14) with (A + 7 * Z.of_nat (S (S n))) by lia.
    rewrite date_range_weeks. fold f.
    unfold adjust_bin_edges, second_last. rewrite Hedges, rev_fmap_seq_2.
    assert ((to_datetime mx <? g (S n)) = true) as ->.
    { apply Z.ltb_lt. unfold g, f.
      replace (A + 7 * Z.of_nat (S n)) with mx.
      - assert (1 < NS_PER_DAY) by reflexivity. lia.
      - pose proof (monday_before_range mx).
        unfold monday_before in *. Z.div_mod_to_equations. lia. }
    rewrite !removelast_fmap_seq. exact Hzip.
  - replace (monday_before mx + 7) with (A + 7 * Z.of_nat (S n)) by lia.
    rewrite date_range_weeks. fold f.
    unfold adjust_bin_edges, second_last. rewrite Hedges, rev_fmap_seq_2.
    assert ((to_datetime mx <? g n) = false) as ->.
    { apply Z.ltb_ge. unfold g, f. rewrite <-HB.
      pose proof (monday_before_range mx) as [Hlt _].
      assert (to_datetime (monday_before mx + 1) ≤ to_datetime mx) as Hnext
        by (apply to_datetime_le; lia).
      rewrite <-to_datetime_add in Hnext. lia. }
    exact Hzip.
Qed.

End WeeklySeries.

(** ** The weekly series, week by week *)

Section WeeklyHours.
Import Pandas.

Lemma in_week_bin M d :
  in_bin (week_bin M).2 (to_datetime d) = true ↔ M < d ≤ M + 7.
Proof.
  unfold in_bin, week_bin. cbn [fst snd].
  rewrite andb_true_iff, Z.ltb_lt, Z.leb_le.
  assert (1 < NS_PER_DAY) as Hns by reflexivity.
  pose proof (to_datetime_add M 1) as H1.
  pose proof (to_datetime_le (M + 1) d) as H2.
  pose proof (to_datetime_le d M) as H3.
  pose proof (to_datetime_le d (M + 7)) as H4.
  pose proof (to_datetime_le (M + 7 + 1) d) as H5.
  pose proof (to_datetime_add (M + 7) 1) as H6.
  lia.
Qed.

Lemma week_rows_days M df :
  week_rows (to_datetime M) df = filter (λ r, M < row_date r ≤ M + 7) df.
Proof.
  unfold week_rows. apply list_filter_iff. intros r.
  replace (to_datetime M + 7 * NS_PER_DAY) with (to_datetime (M + 7))
    by (unfold to_datetime; ring).
  by rewrite to_datetime_lt, to_datetime_le.
Qed.

Lemma week_starts_elem mn mx M :
  M ∈ week_starts mn mx →
  ∃ i : nat, M = monday_before mn + 7 * Z.of_nat i
    ∧ (i ≤ Z.to_nat ((monday_before mx - monday_before mn) / 7))%nat.
Proof.
  unfold week_starts. rewrite list_elem_of_fmap.
  intros (i & -> & Hi%elem_of_seq). exists i. split; [done|lia].
Qed.

Lemma week_starts_monday mn mx M :
  M ∈ week_starts mn mx → (M + 3) mod 7 = 0.
Proof.
  intros (i & -> & _)%week_starts_elem.
  pose proof (monday_before_weekday mn). Z.div_mod_to_equations. lia.
Qed.

Lemma week_starts_NoDup mn mx : NoDup (week_starts mn mx).
Proof.
  unfold week_starts. apply NoDup_fmap_2; [|apply NoDup_seq].
  intros i j. lia.
Qed.

Lemma week_starts_covers mn mx d :
  mn ≤ d ≤ mx → monday_before d ∈ week_starts mn mx.
Proof.
  intros [Hmn Hmx]. unfold week_starts. apply list_elem_of_fmap.
  pose proof (monday_before_mono _ _ Hmn) as H1.
  pose proof (monday_before_mono _ _ Hmx) as H2.
  destruct (monday_before_step mn d) as [k Hk].
  destruct (monday_before_step mn mx) as [k' Hk'].
  exists (Z.to_nat k). split; [lia|].
  apply elem_of_seq. rewrite Hk', (Z.mul_comm 7 k'), Z_div_mult by done. lia.
Qed.

(** Line 262 on a frame with at least one row: one entry per week from the
    week of the first day to the week of the last day, each with the hours
    of the rows whose Monday-before is its label. *)
Lemma weekly_hours_weeks r rs :
  weekly_hours (r :: rs)
  = (λ M, (to_datetime M, sum_hours (week_rows (to_datetime M) (r :: rs))))
      <$> week_starts (first_day r rs) (last_day r rs).
Proof.
  unfold weekly_hours.
  rewrite (list_fmap_compose row_date to_datetime), fmap_cons.
  rewrite get_time_bins_weeks, <-list_fmap_compose.
  apply list_fmap_ext. intros _ M _. unfold compose.
  change (week_bin M).1 with (to_datetime M). f_equal.
  rewrite week_rows_days.
  apply sum_hours_filter_ext. intros r' _. apply in_week_bin.
Qed.

Lemma week_rows_monday M df :
  (M + 3) mod 7 = 0 →
  week_rows (to_datetime M) df
  = filter (λ r, monday_before (row_date r) = M) df.
Proof.
  intros HM. rewrite week_rows_days. apply list_filter_iff.
  intros r. by apply monday_before_iff.
Qed.

Lemma row_date_bounds r rs r' :
  r' ∈ r :: rs → first_day r rs ≤ row_date r' ≤ last_day r rs.
Proof.
  intros Hr'. unfold first_day, last_day.
  assert (row_date r' ∈ row_date r :: (row_date <$> rs)) as Hd.
  { rewrite <-fmap_cons. apply list_elem_of_fmap. eauto. }
  split; [by apply list_min_le|by apply list_max_ge].
Qed.

Lemma weekly_hours_sum df : sum_values (weekly_hours df) = sum_hours df.
Proof.
  destruct df as [|r rs]; [done|].
  rewrite weekly_hours_weeks, (sum_values_fmap to_datetime).
  set (ks := week_starts (first_day r rs) (last_day r rs)).
  transitivity (sum_per_class (monday_before ∘ row_date) ks (r :: rs)).
  - unfold sum_per_class. apply foldr_sum_ext. intros M HM.
    unfold compose. rewrite week_rows_monday; [done|].
    by apply (week_starts_monday _ _ _ HM).
  - apply sum_per_class_total; [apply week_starts_NoDup|].
    intros r' Hr'. apply week_starts_covers. by apply row_date_bounds.
Qed.

End WeeklyHours.

(** ** The aggregate report: totals, groups and weeks *)

Example scenario_monday :
  Pandas.weekday (Pandas.to_datetime (day_number 2025 1 6)) = Pandas.MON.
Proof. reflexivity. Qed.

Example scenario_totals :
  totalHours (aggregate scenario) = Qc_of_Z 10
  ∧ hoursByPerson (aggregate scenario)
    = [(str "Alice", Qc_of_Z 5); (str "Bob", Qc_of_Z 5)]
  ∧ hoursBySubject (aggregate scenario)
    = [(str "Meetings", Qc_of_Z 5); (str "Technical Work", Qc_of_Z 5)].
Proof. by_evaluation. Qed.

(** Every record is counted in the entry labelled by the Monday strictly
    before its date: for a record dated on a Monday that is the Monday one
    week earlier. *)
Lemma weekly_hours_attribution df r :
  r ∈ df →
  let L := Pandas.to_datetime (monday_before (row_date r)) in
  (L, sum_hours (week_rows L df)) ∈ weekly_hours df ∧ r ∈ week_rows L df.
Proof.
  intros Hr. destruct df as [|r0 rs]; [by apply elem_of_nil in Hr|].
  cbv zeta. split.
  - rewrite weekly_hours_weeks. apply list_elem_of_fmap.
    exists (monday_before (row_date r)). split; [done|].
    apply week_starts_covers. by apply row_date_bounds.
  - rewrite week_rows_days. apply list_elem_of_filter. split; [|done].
    apply monday_before_range.
Qed.

Lemma monday_before_monday d :
  Pandas.weekday (Pandas.to_datetime d) = Pandas.MON → monday_before d = d - 7.
Proof.
  rewrite weekday_to_datetime. unfold Pandas.MON, monday_before.
  intros Hd. Z.div_mod_to_equations. lia.
Qed.

Lemma monday_before_other d :
  Pandas.weekday (Pandas.to_datetime d) ≠ Pandas.MON →
  monday_before d = d - Pandas.weekday (Pandas.to_datetime d).
Proof.
  rewrite weekday_to_datetime. unfold Pandas.MON, monday_before.
  intros Hd. Z.div_mod_to_equations. lia.
Qed.

(** A record dated on a Monday is counted in the entry labelled seven days
    before its date. *)
Lemma monday_record_in_previous_week df r :
  r ∈ df →
  Pandas.weekday (Pandas.to_datetime (row_date r)) = Pandas.MON →
  let L := Pandas.to_datetime (row_date r - 7) in
  (L, sum_hours (week_rows L df)) ∈ weekly_hours df ∧ r ∈ week_rows L df.
Proof.
  intros Hr Hmon. rewrite <-(monday_before_monday _ Hmon).
  by apply weekly_hours_attribution.
Qed.

(** C1 (the code at the scenario of the specification): the two records dated
    Monday 2025-01-06 are summed under the label 2024-12-30, the record dated
    Wednesday 2025-01-08 under 2025-01-06; the series is not the single
    entry (2025-01-06, 10). *)
Theorem weekly_hours_scenario :
  weekly_hours scenario
  = [ (Pandas.to_datetime (day_number 2024 12 30), Qc_of_Z 8);
      (Pandas.to_datetime (day_number 2025 1 6), Qc_of_Z 2) ]
  ∧ weekly_bars scenario
    = [ (str "2024-12-30", Qc_of_Z 8); (str "2025-01-06", Qc_of_Z 2) ]
  ∧ weekly_hours scenario
    ≠ [ (Pandas.to_datetime (day_number 2025 1 6), Qc_of_Z 10) ]
  ∧ weekly_bars scenario ≠ [ (str "2025-01-06", Qc_of_Z 10) ].
Proof. repeat split; by_evaluation. Qed.

(** C2 as stated fails: between the weeks of the two records of
    [gap_dataset] the series has an entry with sum 0, labelled 2025-01-13,
    and no record is dated from that day to the Monday after it. *)
Lemma gap_week_is_zero_filled :
  gap_dataset ≠ []
  ∧ (Pandas.to_datetime (day_number 2025 1 13), 0%Qc) ∈ weekly_hours gap_dataset
  ∧ ¬ no_zero_filling gap_dataset.
Proof.
  assert ((Pandas.to_datetime (day_number 2025 1 13), 0%Qc)
            ∈ weekly_hours gap_dataset) as Hin by by_evaluation.
  split; [done|]. split; [done|].
  intros Hclaim. apply (Hclaim _ _ Hin). by_evaluation.
Qed.

(** The series week by week: the labels are seven days apart, and each entry
    sums the rows dated after its label and at most seven days after it. *)
Lemma weekly_hours_by_week r rs :
  let L0 := Pandas.to_datetime (monday_before (first_day r rs)) in
  let n := Z.to_nat ((monday_before (last_day r rs)
                      - monday_before (first_day r rs)) / 7) in
  weekly_hours (r :: rs)
  = (λ i : nat, let L := L0 + Z.of_nat i * (7 * Pandas.NS_PER_DAY) in
                (L, sum_hours (week_rows L (r :: rs)))) <$> seq 0 (S n)
  ∧ L0 + Z.of_nat n * (7 * Pandas.NS_PER_DAY)
    = Pandas.to_datetime (monday_before (last_day r rs)).
Proof.
  intros L0 n.
  assert (∀ i : nat, L0 + Z.of_nat i * (7 * Pandas.NS_PER_DAY)
    = Pandas.to_datetime (monday_before (first_day r rs) + 7 * Z.of_nat i))
    as Hlabel by (intros i; unfold L0, Pandas.to_datetime; ring).
  split.
  - rewrite weekly_hours_weeks. unfold week_starts.
    rewrite <-list_fmap_compose. apply list_fmap_ext. intros _ i _.
    unfold compose. cbv zeta. by rewrite Hlabel.
  - rewrite Hlabel. f_equal. symmetry. apply week_starts_count.
    unfold first_day, last_day.
    etrans; [apply list_min_le|apply list_max_ge]; left.
Qed.

(** C2 (amended): the series of a non-empty dataset has one entry for every
    week from the week of the earliest record to the week of the latest one,
    labels Mondays, ascending and exactly seven days apart; each entry holds
    the sum of the records counted in its week, so the entry of a week
    without records is there with sum 0; every record is counted in one of
    the entries; the first and the last entry have a record. *)
Theorem weekly_series_consecutive_weeks df :
  df ≠ [] →
  ∃ (L0 : Z) (n : nat),
    let Ln := L0 + Z.of_nat n * (7 * Pandas.NS_PER_DAY) in
    weekly_hours df
    = (λ i : nat, let L := L0 + Z.of_nat i * (7 * Pandas.NS_PER_DAY) in
                  (L, sum_hours (week_rows L df))) <$> seq 0 (S n)
    ∧ Pandas.weekday L0 = Pandas.MON ∧ Pandas.normalize L0 = L0
    ∧ Sorted Z.lt (weekly_hours df).*1
    ∧ (∀ r, r ∈ df → ∃ L, L ∈ (weekly_hours df).*1 ∧ r ∈ week_rows L df)
    ∧ (∀ L h, (L, h) ∈ weekly_hours df → week_rows L df = [] → h = 0%Qc)
    ∧ week_rows L0 df ≠ []
    ∧ week_rows Ln df ≠ [].
Proof.
  destruct df as [|r rs]; [done|]. intros _.
  destruct (weekly_hours_by_week r rs) as [Hweeks Hlast]. cbv zeta in *.
  set (L0 := Pandas.to_datetime (monday_before (first_day r rs))) in *.
  set (n := Z.to_nat _) in *.
  exists L0, n. cbv zeta.
  assert (∀ r', r' ∈ r :: rs →
    (Pandas.to_datetime (monday_before (row_date r')),
     sum_hours (week_rows (Pandas.to_datetime (monday_before (row_date r')))
                  (r :: rs))) ∈ weekly_hours (r :: rs)
    ∧ r' ∈ week_rows (Pandas.to_datetime (monday_before (row_date r'))) (r :: rs))
    as Hown by (intros r' Hr'; apply (weekly_hours_attribution _ _ Hr')).
  split; [exact Hweeks|].
  split; [unfold L0; by rewrite weekday_to_datetime, monday_before_weekday|].
  split; [apply normalize_to_datetime|].
  split; [|split; [|split; [|split]]].
  - rewrite Hweeks, <-list_fmap_compose. apply Sorted_fmap_seq. intros i.
    unfold compose. cbn [fst].
    assert (0 < Pandas.NS_PER_DAY) by reflexivity. lia.
  - intros r' Hr'. destruct (Hown r' Hr') as [Hentry Hrow].
    eexists. split; [|exact Hrow].
    apply list_elem_of_fmap. by eexists (_, _).
  - intros L h Hin Hempty. rewrite Hweeks in Hin.
    apply list_elem_of_fmap in Hin as (i & [= -> ->] & _).
    by rewrite Hempty.
  - assert (first_day r rs ∈ row_date <$> r :: rs)
      as (r' & Hr' & Hin)%list_elem_of_fmap by apply list_min_elem.
    intros Hnil. destruct (Hown r' Hin) as [_ Hrow]. rewrite <-Hr' in Hrow.
    fold L0 in Hrow. rewrite Hnil in Hrow. by apply elem_of_nil in Hrow.
  - assert (last_day r rs ∈ row_date <$> r :: rs)
      as (r' & Hr' & Hin)%list_elem_of_fmap by apply list_max_elem.
    intros Hnil. destruct (Hown r' Hin) as [_ Hrow].
    rewrite <-Hr', <-Hlast in Hrow.
    rewrite Hnil in Hrow. by apply elem_of_nil in Hrow.
Qed.

Lemma weekly_series_consecutive_weeks_witness :
  ∃ (L0 : Z) (n : nat),
    let Ln := L0 + Z.of_nat n * (7 * Pandas.NS_PER_DAY) in
    weekly_hours gap_dataset
    = (λ i : nat, let L := L0 + Z.of_nat i * (7 * Pandas.NS_PER_DAY) in
                  (L, sum_hours (week_rows L gap_dataset))) <$> seq 0 (S n)
    ∧ Pandas.weekday L0 = Pandas.MON ∧ Pandas.normalize L0 = L0
    ∧ Sorted Z.lt (weekly_hours gap_dataset).*1
    ∧ (∀ r, r ∈ gap_dataset →
         ∃ L, L ∈ (weekly_hours gap_dataset).*1 ∧ r ∈ week_rows L gap_dataset)
    ∧ (∀ L h, (L, h) ∈ weekly_hours gap_dataset
         → week_rows L gap_dataset = [] → h = 0%Qc)
    ∧ week_rows L0 gap_dataset ≠ []
    ∧ week_rows Ln gap_dataset ≠ [].
Proof. apply weekly_series_consecutive_weeks. discriminate. Defined.

(** C3: when every record has a person and a subject, the per-person sums
    and the per-subject sums each add up to the total. *)
Theorem grouped_sums_equal_total df :
  Forall (λ r, is_Some (row_name r) ∧ is_Some (row_subject r)) df →
  sum_values (hoursByPerson (aggregate df)) = totalHours (aggregate df)
  ∧ sum_values (hoursBySubject (aggregate df)) = totalHours (aggregate df)
  ∧ sum_values (hoursByPerson (aggregate df))
    = sum_values (hoursBySubject (aggregate df)).
Proof.
  rewrite Forall_forall. intros Hkeys. cbn [aggregate hoursByPerson hoursBySubject totalHours].
  rewrite !groupby_sum_values.
  rewrite !sum_hours_filter_True; [done| |].
  - intros r Hr. by apply Hkeys.
  - intros r Hr. by apply Hkeys.
Qed.

Lemma grouped_sums_equal_total_witness :
  sum_values (hoursByPerson (aggregate scenario)) = totalHours (aggregate scenario)
  ∧ sum_values (hoursBySubject (aggregate scenario)) = totalHours (aggregate scenario)
  ∧ sum_values (hoursByPerson (aggregate scenario))
    = sum_values (hoursBySubject (aggregate scenario)).
Proof.
  apply grouped_sums_equal_total.
  repeat constructor; eexists; reflexivity.
Defined.

(** A row whose name cell is missing is in the total and in no group. *)
Example missing_name_is_dropped :
  let df := [mkRow None (Date (day_number 2025 1 7)) (Qc_of_Z 2) (Some (str "Meetings"))] in
  hoursByPerson (aggregate df) = []
  ∧ totalHours (aggregate df) = Qc_of_Z 2
  ∧ sum_values (hoursBySubject (aggregate df)) = Qc_of_Z 2.
Proof. cbv zeta. by_evaluation. Qed.

(** C4: the entries of the weekly series add up to the total. *)
Theorem weekly_series_sum_total df :
  sum_values (weeklySeries (aggregate df)) = totalHours (aggregate df).
Proof. apply weekly_hours_sum. Qed.

(** ** The report does not depend on the order of the records *)

Section OrderIndependence.
Import Pandas.

Lemma list_min_Permutation d1 ds1 d2 ds2 :
  d1 :: ds1 ≡ₚ d2 :: ds2 → list_min d1 ds1 = list_min d2 ds2.
Proof.
  intros Hp.
  pose proof (list_min_elem d1 ds1) as H1. rewrite Hp in H1.
  pose proof (list_min_elem d2 ds2) as H2. rewrite <-Hp in H2.
  apply list_min_le in H1. apply list_min_le in H2. lia.
Qed.

Lemma list_max_Permutation d1 ds1 d2 ds2 :
  d1 :: ds1 ≡ₚ d2 :: ds2 → list_max d1 ds1 = list_max d2 ds2.
Proof.
  intros Hp.
  pose proof (list_max_elem d1 ds1) as H1. rewrite Hp in H1.
  pose proof (list_max_elem d2 ds2) as H2. rewrite <-Hp in H2.
  apply list_max_ge in H1. apply list_max_ge in H2. lia.
Qed.

Lemma weekly_hours_Permutation df1 df2 :
  df1 ≡ₚ df2 → weekly_hours df1 = weekly_hours df2.
Proof.
  intros Hp. destruct df1 as [|r1 rs1], df2 as [|r2 rs2].
  - done.
  - by apply Permutation_nil_cons in Hp.
  - symmetry in Hp. by apply Permutation_nil_cons in Hp.
  - rewrite !weekly_hours_weeks.
    assert (row_date r1 :: (row_date <$> rs1) ≡ₚ row_date r2 :: (row_date <$> rs2))
      as Hdates by (rewrite <-!fmap_cons; by apply fmap_Permutation).
    unfold first_day, last_day.
    rewrite (list_min_Permutation _ _ _ _ Hdates),
      (list_max_Permutation _ _ _ _ Hdates).
    apply list_fmap_ext. intros _ M _. f_equal.
    apply sum_hours_Permutation. unfold week_rows. by rewrite Hp.
Qed.

Lemma aggregate_Permutation df1 df2 :
  df1 ≡ₚ df2 → aggregate df1 = aggregate df2.
Proof.
  intros Hp. unfold aggregate.
  by rewrite (sum_hours_Permutation _ _ Hp),
    !(groupby_sum_Permutation _ _ _ Hp), (weekly_hours_Permutation _ _ Hp).
Qed.

Lemma concat_fmap_Permutation {A B} (f : A → list B) (l1 l2 : list A) :
  l1 ≡ₚ l2 → concat (f <$> l1) ≡ₚ concat (f <$> l2).
Proof.
  induction 1 as [|x l l' _ IH|x y l|l l' l'' _ IH1 _ IH2]; simpl.
  - done.
  - by rewrite IH.
  - rewrite !(assoc (++)). f_equiv. apply Permutation_app_comm.
  - by etrans.
Qed.

Lemma merged_records_snapshot s1 s2 :
  same_snapshot s1 s2 → merged_records s1 ≡ₚ merged_records s2.
Proof.
  destruct s1 as [l1|], s2 as [l2|]; simpl; try done.
  intros Hp. apply concat_fmap_Permutation. unfold storage_units. by rewrite Hp.
Qed.

End OrderIndependence.

(** ** What the report holds *)

Lemma weekly_hours_labels_NoDup df : NoDup (weekly_hours df).*1.
Proof.
  destruct df as [|r rs]; [constructor|].
  rewrite weekly_hours_weeks, <-list_fmap_compose.
  apply NoDup_fmap_2; [|apply week_starts_NoDup].
  intros M1 M2. unfold compose. cbn [fst]. unfold Pandas.to_datetime.
  assert (0 < Pandas.NS_PER_DAY) by reflexivity. nia.
Qed.

Lemma weekly_hours_entry df L h :
  (L, h) ∈ weekly_hours df → h = sum_hours (week_rows L df).
Proof.
  destruct df as [|r rs]; [by intros ?%elem_of_nil|].
  rewrite weekly_hours_weeks, list_elem_of_fmap.
  by intros (M & [= -> ->] & _).
Qed.

(** The report computed from a frame reflects exactly its records. *)
Lemma aggregate_reflects df : reflects (aggregate df) df.
Proof.
  split; [done|]. split; [apply groupby_sum_table_of|].
  split; [apply groupby_sum_table_of|].
  split; [apply weekly_hours_labels_NoDup|].
  split; [apply weekly_hours_entry|].
  intros r Hr. destruct (weekly_hours_attribution df r Hr) as [Hentry Hrow].
  eexists. split; [|exact Hrow].
  apply list_elem_of_fmap. by eexists (_, _).
Qed.

(** ** One refresh of the dashboard *)

Section Dashboard.
Variable DATA_FOLDER : pystr.

Lemma read_units_from acc file_list :
  foldl (read_unit DATA_FOLDER) acc file_list
  = (acc.1 ++ omap kept_frame file_list,
     acc.2 ++ omap (read_warning DATA_FOLDER) file_list).
Proof.
  revert acc. induction file_list as [|u l IH]; intros [frames shown].
  - simpl. by rewrite !app_nil_r.
  - simpl foldl. rewrite IH. destruct u as [f [e|df]].
    + unfold read_unit, kept_frame, read_warning. simpl.
      by rewrite <-(assoc (++)).
    + unfold read_unit, kept_frame, read_warning. simpl.
      case_bool_decide; simpl; [done|]. by rewrite <-(assoc (++)).
Qed.

Lemma read_units_closed file_list :
  read_units DATA_FOLDER file_list
  = (omap kept_frame file_list, omap (read_warning DATA_FOLDER) file_list).
Proof. unfold read_units. by rewrite read_units_from. Qed.

(** Leaving out the empty frames does not change the concatenation. *)
Lemma concat_kept_frames units :
  concat (omap kept_frame units) = concat (unit_records <$> units).
Proof.
  induction units as [|[f [e|df]] l IH]; simpl; [done|done|].
  unfold kept_frame, unit_records. simpl.
  case_bool_decide as Hdf; simpl; [by subst|by f_equal].
Qed.

Lemma kept_frames_nonempty units : Forall (λ df, df ≠ []) (omap kept_frame units).
Proof.
  induction units as [|[f [e|df]] l IH]; simpl; [constructor|done|].
  unfold kept_frame. simpl. case_bool_decide; simpl; [done|by constructor].
Qed.

Lemma kept_frames_nil units :
  omap kept_frame units = [] ↔ concat (unit_records <$> units) = [].
Proof.
  rewrite <-concat_kept_frames. split; [by intros ->|].
  pose proof (kept_frames_nonempty units) as Hne.
  destruct (omap kept_frame units) as [|df l]; [done|].
  apply Forall_cons in Hne as [Hdf _]. simpl. by destruct df.
Qed.

Lemma to_datetime_column_closed df :
  to_datetime_column df = if bool_decide (dates_parse df) then Some df else None.
Proof.
  unfold to_datetime_column, dates_parse.
  assert (forallb (λ r, is_date (row_date_cell r)) df = true
          ↔ Forall (λ r, is_date (row_date_cell r) = true) df) as Hall.
  { induction df as [|r df IH]; simpl; [by split; [constructor|]|].
    rewrite andb_true_iff, Forall_cons, IH. done. }
  destruct (forallb _ df).
  - by rewrite bool_decide_true by (by apply Hall).
  - rewrite bool_decide_false; [done|]. intros H%Hall. done.
Qed.

(** An exception leaves [show_dashboard] exactly when a date cell of the
    merged records is no date; otherwise it shows the report of the merged
    records when there are any and leaves the dashboard as it is when there
    are none. *)
Lemma show_dashboard_closed storage ui :
  show_dashboard DATA_FOLDER storage ui
  = if bool_decide (dates_parse (merged_records storage))
    then Some (dashboard_after storage ui, refresh_messages DATA_FOLDER storage)
    else None.
Proof.
  destruct storage as [listing|];
    [|by rewrite bool_decide_true by apply Forall_nil_2].
  unfold show_dashboard, dashboard_after, refresh_messages.
  fold (storage_units listing).
  case_bool_decide as Hunits.
  { simpl. rewrite Hunits. by rewrite bool_decide_true by apply Forall_nil_2. }
  rewrite read_units_closed. simpl merged_records.
  pose proof (kept_frames_nil (storage_units listing)) as Hnil.
  pose proof (concat_kept_frames (storage_units listing)) as Hconcat.
  destruct (omap kept_frame (storage_units listing)) as [|df frames] eqn:Hkept.
  - rewrite bool_decide_true by done.
    rewrite (proj1 Hnil eq_refl).
    by rewrite !bool_decide_true by (done || apply Forall_nil_2).
  - rewrite bool_decide_false by done.
    rewrite (bool_decide_false (concat _ = [])) by (intros H; by apply Hnil in H).
    cbn [pd_concat mbind option_bind]. rewrite Hconcat.
    rewrite to_datetime_column_closed. case_bool_decide; [|done].
    simpl. by rewrite app_nil_r.
Qed.

(** *** Units that read well *)

Lemma unit_records_parsed (units : list (pystr * DataFrame)) :
  unit_records <$> (parsed_unit <$> units) = units.*2.
Proof. rewrite <-list_fmap_compose. by apply list_fmap_ext. Qed.

Lemma read_warning_parsed (units : list (pystr * DataFrame)) :
  omap (read_warning DATA_FOLDER) (parsed_unit <$> units) = [].
Proof. induction units as [|u l IH]; [done|]. by rewrite fmap_cons. Qed.

Lemma storage_units_all listing :
  Forall (λ u, Py.endswith u.1 (str "_hours.csv") = true) listing →
  storage_units listing = listing.
Proof.
  unfold storage_units. induction 1 as [|u l Hu _ IH]; [done|].
  by rewrite filter_cons, decide_True, IH.
Qed.

Lemma length_concat_sum {A} (ls : list (list A)) :
  length (concat ls) = sum_list (length <$> ls).
Proof.
  induction ls as [|l ls IH]; [done|].
  simpl. by rewrite length_app, IH.
Qed.

Lemma occurrences_concat r (ls : list DataFrame) :
  occurrences r (concat ls) = sum_list (occurrences r <$> ls).
Proof.
  unfold occurrences. induction ls as [|l ls IH]; [done|].
  simpl. by rewrite filter_app, length_app, IH.
Qed.

End Dashboard.

Section DashboardClaims.
Variable DATA_FOLDER : pystr.

(** C5 (amended): with one unit on which [pd.read_csv] raises among valid
    units, the refresh returns normally and shows one warning, for the
    failing unit; the dashboard is the one a refresh without the failing
    unit gives.  When the valid units hold a record it shows a report that
    reflects exactly their records; when they hold none, "No Data" is shown
    and the dashboard stays as it was. *)
Theorem corrupt_unit_is_skipped ui (pre post : list (pystr * DataFrame)) bad e :
  Forall (λ u, Py.endswith u.1 (str "_hours.csv") = true) (pre ++ post) →
  Py.endswith bad (str "_hours.csv") = true →
  Forall (λ u, valid_records u.2) (pre ++ post) →
  let listing :=
    (parsed_unit <$> pre) ++ (bad, ReadRaises e) :: (parsed_unit <$> post) in
  let records := concat ((pre ++ post).*2) in
  ∃ ui',
    show_dashboard DATA_FOLDER (Some listing) ui
    = Some (ui', FileReadError (Py.path_join DATA_FOLDER bad) e
                   :: (if bool_decide (records = []) then [NoDataNoValid] else []))
    ∧ fst <$> show_dashboard DATA_FOLDER (Some (parsed_unit <$> pre ++ post)) ui
      = Some ui'
    ∧ (records = [] → ui' = ui)
    ∧ (records ≠ [] → ∃ report, ui' = Some report ∧ reflects report records).
Proof.
  intros Hnames Hbad Hvalid listing records.
  assert (Forall (λ u : pystr * ReadResult,
            Py.endswith u.1 (str "_hours.csv") = true) listing) as Hall.
  { apply Forall_app in Hnames as [Hpre Hpost]. unfold listing.
    apply Forall_app. split; [|constructor; [done|]];
      by apply Forall_fmap. }
  assert (merged_records (Some listing) = records) as Hmerged.
  { simpl. rewrite (storage_units_all _ Hall). unfold listing, records.
    rewrite fmap_app, fmap_cons, !unit_records_parsed, !concat_app, fmap_app.
    by rewrite concat_app. }
  assert (merged_records (Some (parsed_unit <$> pre ++ post)) = records)
    as Hmerged'.
  { simpl. rewrite storage_units_all by (by apply Forall_fmap).
    by rewrite unit_records_parsed. }
  assert (dates_parse records) as Hparse.
  { unfold records, dates_parse. apply Forall_concat, Forall_fmap.
    eapply Forall_impl; [exact Hvalid|]. intros u Hu.
    eapply Forall_impl; [exact Hu|]. by intros r (_ & Hdate & _). }
  exists (dashboard_after (Some listing) ui).
  rewrite !show_dashboard_closed. unfold dashboard_after.
  rewrite Hmerged, Hmerged', !bool_decide_true by done. cbn [fmap option_fmap option_map fst].
  split; [|split; [done|split]].
  - do 2 f_equal.
    unfold refresh_messages. rewrite Hmerged, (storage_units_all _ Hall).
    rewrite bool_decide_false by (unfold listing; by destruct pre).
    unfold listing. rewrite omap_app, read_warning_parsed.
    change (omap (read_warning DATA_FOLDER)
              ((bad, ReadRaises e) :: (parsed_unit <$> post)))
      with (FileReadError (Py.path_join DATA_FOLDER bad) e
              :: omap (read_warning DATA_FOLDER) (parsed_unit <$> post)).
    by rewrite read_warning_parsed.
  - intros Hnil. by rewrite bool_decide_true.
  - intros Hne. rewrite bool_decide_false by done.
    eexists. split; [done|apply aggregate_reflects].
Qed.

(** C6 (amended): with no storage unit, or no record in any unit, the
    refresh returns normally, ends with a "No Data" message and leaves the
    dashboard as it was; it computes no report. *)
Theorem empty_input_keeps_dashboard storage ui :
  merged_records storage = [] →
  ∃ shown m,
    show_dashboard DATA_FOLDER storage ui = Some (ui, shown)
    ∧ last shown = Some m ∧ no_data_message m.
Proof.
  intros Hempty. rewrite show_dashboard_closed.
  rewrite bool_decide_true by (rewrite Hempty; apply Forall_nil_2).
  unfold dashboard_after, refresh_messages. rewrite bool_decide_true by done.
  destruct storage as [listing|].
  - case_bool_decide.
    + exists [NoDataNoFiles], NoDataNoFiles. unfold no_data_message. auto.
    + eexists _, NoDataNoValid. split; [done|]. split.
      * by rewrite last_snoc.
      * unfold no_data_message. auto.
  - exists [NoDataFolderNotFound], NoDataFolderNotFound.
    unfold no_data_message. auto.
Qed.

(** C7: whenever the merger runs, the merged dataset is the concatenation of
    all record sets read: its length is the sum of their lengths, every
    record occurs as often as in all sets together, and every record of
    every set is in it.  The merger is not run only when no set has a
    record. *)
Theorem merged_dataset_is_concatenation (units : list (pystr * DataFrame)) :
  let sets := units.*2 in
  match pd_concat (read_units DATA_FOLDER (parsed_unit <$> units)).1 with
  | Some master_df =>
      master_df = concat sets
      ∧ length master_df = sum_list (length <$> sets)
      ∧ (∀ r, occurrences r master_df = sum_list (occurrences r <$> sets))
      ∧ (∀ df r, df ∈ sets → r ∈ df → r ∈ master_df)
  | None => concat sets = []
  end.
Proof.
  intros sets. rewrite read_units_closed. cbn [fst].
  pose proof (concat_kept_frames (parsed_unit <$> units)) as Hconcat.
  pose proof (kept_frames_nil (parsed_unit <$> units)) as Hnil.
  rewrite unit_records_parsed in Hconcat, Hnil. fold sets in Hconcat, Hnil.
  destruct (omap kept_frame (parsed_unit <$> units)) as [|df frames].
  - simpl. by apply Hnil.
  - cbn [pd_concat]. rewrite Hconcat.
    split; [done|]. split; [apply length_concat_sum|].
    split; [intros r; apply occurrences_concat|].
    intros df' r Hdf Hr. apply list_elem_of_In, in_concat.
    exists df'. by rewrite <-!list_elem_of_In.
Qed.

(** C8: two listings of one unchanged storage snapshot, whatever the order
    in which the files are listed, give the same report; two refreshes on
    them show the same dashboard, from the same dashboard and one after the
    other.  (With a date cell that is no date both refreshes raise, and no
    report is computed.) *)
Theorem refresh_is_repeatable s1 s2 ui :
  same_snapshot s1 s2 →
  aggregate (merged_records s1) = aggregate (merged_records s2)
  ∧ (dates_parse (merged_records s1) →
     ∃ ui' shown1 shown2 shown3,
       show_dashboard DATA_FOLDER s1 ui = Some (ui', shown1)
       ∧ show_dashboard DATA_FOLDER s2 ui = Some (ui', shown2)
       ∧ show_dashboard DATA_FOLDER s2 ui' = Some (ui', shown3))
  ∧ (¬ dates_parse (merged_records s1) →
     show_dashboard DATA_FOLDER s1 ui = None
     ∧ show_dashboard DATA_FOLDER s2 ui = None).
Proof.
  intros Hsame. pose proof (merged_records_snapshot _ _ Hsame) as Hp.
  split; [by apply aggregate_Permutation|].
  assert (dates_parse (merged_records s1) ↔ dates_parse (merged_records s2))
    as Hdates by (unfold dates_parse; by rewrite Hp).
  assert (dashboard_after s2 ui = dashboard_after s1 ui) as Heq.
  { unfold dashboard_after. destruct (merged_records s1) as [|r rs] eqn:H1.
    - apply Permutation_nil_l in Hp. by rewrite <-Hp.
    - rewrite (bool_decide_false (r :: rs = [])) by done.
      rewrite bool_decide_false.
      + f_equal. symmetry. by apply aggregate_Permutation.
      + intros H2. rewrite H2 in Hp. by apply Permutation_nil_r in Hp. }
  assert (dashboard_after s2 (dashboard_after s2 ui) = dashboard_after s2 ui)
    as Hidem by (unfold dashboard_after; by case_bool_decide).
  split.
  - intros Hparse.
    exists (dashboard_after s1 ui), (refresh_messages DATA_FOLDER s1),
      (refresh_messages DATA_FOLDER s2), (refresh_messages DATA_FOLDER s2).
    rewrite !show_dashboard_closed.
    rewrite !bool_decide_true by (done || by apply Hdates).
    by rewrite <-Heq, Hidem.
  - intros Hbad. rewrite !show_dashboard_closed.
    by rewrite !bool_decide_false by (done || by rewrite <-Hdates).
Qed.

End DashboardClaims.

Lemma corrupt_unit_is_skipped_witness :
  ∃ ui',
    show_dashboard data_folder
      (Some [parsed_unit alice_unit; corrupt_unit; parsed_unit bob_unit]) None
    = Some (ui',
            [FileReadError (Py.path_join data_folder (str "carol_hours.csv"))
               (str "Error tokenizing data")])
    ∧ fst <$> show_dashboard data_folder
                (Some [parsed_unit alice_unit; parsed_unit bob_unit]) None
      = Some ui'
    ∧ (alice_unit.2 ++ bob_unit.2 = [] → ui' = None)
    ∧ (alice_unit.2 ++ bob_unit.2 ≠ [] →
       ∃ report, ui' = Some report ∧ reflects report (alice_unit.2 ++ bob_unit.2)).
Proof.
  refine (corrupt_unit_is_skipped data_folder None
            [alice_unit] [bob_unit] (str "carol_hours.csv")
            (str "Error tokenizing data") _ _ _).
  - by_evaluation.
  - reflexivity.
  - by_evaluation.
Defined.

(** C5 as stated fails by the guard of lines 233-235: beside a unit that
    fails to read, valid units without a record give no report of their
    (zero) records; "No Data" is shown, and the dashboard stays blank, or
    keeps an older report that does not reflect them. *)
Lemma failing_unit_beside_empty_unit :
  let listing := Some [corrupt_unit; parsed_unit empty_unit] in
  let warning :=
    FileReadError (Py.path_join data_folder (str "carol_hours.csv"))
      (str "Error tokenizing data") in
  show_dashboard data_folder listing None = Some (None, [warning; NoDataNoValid])
  ∧ show_dashboard data_folder listing (Some (aggregate scenario))
    = Some (Some (aggregate scenario), [warning; NoDataNoValid])
  ∧ ¬ failing_unit_is_skipped data_folder [] [empty_unit] corrupt_unit None
  ∧ ¬ failing_unit_is_skipped data_folder [] [empty_unit] corrupt_unit
        (Some (aggregate scenario)).
Proof.
  cbv zeta. split; [by_evaluation|]. split; [by_evaluation|].
  split; intros (report & shown & Hshow & Hreflects).
  - discriminate Hshow.
  - assert (report = aggregate scenario) as ->.
    { assert (show_dashboard data_folder
                (Some (corrupt_unit :: (parsed_unit <$> [empty_unit])))
                (Some (aggregate scenario))
              = Some (Some (aggregate scenario),
                      [FileReadError (Py.path_join data_folder (str "carol_hours.csv"))
                         (str "Error tokenizing data"); NoDataNoValid])) as Heq
        by by_evaluation.
      pose proof (eq_trans (eq_sym Heq) Hshow) as Hboth.
      by injection Hboth as <- _. }
    destruct Hreflects as [Htotal _]. revert Htotal. by_evaluation.
Qed.

(** C6 as stated fails: with a data folder that holds no file the refresh
    shows "No Data" and the dashboard stays as it was, blank before the
    first report and with the old report after one; the empty report is
    never shown. *)
Lemma empty_storage_shows_no_report :
  merged_records (Some []) = []
  ∧ show_dashboard data_folder (Some []) None = Some (None, [NoDataNoFiles])
  ∧ show_dashboard data_folder (Some []) (Some (aggregate scenario))
    = Some (Some (aggregate scenario), [NoDataNoFiles])
  ∧ aggregate scenario ≠ empty_report
  ∧ ¬ (∃ shown, show_dashboard data_folder (Some []) None
                = Some (Some empty_report, shown)).
Proof.
  split; [done|]. split; [done|]. split; [done|]. split; [by_evaluation|].
  intros [shown Hshown]. discriminate Hshown.
Qed.

Lemma empty_input_keeps_dashboard_witness :
  ∃ shown m,
    show_dashboard data_folder (Some [(str "alice_hours.csv", Parsed [])]) None
    = Some (None, shown)
    ∧ last shown = Some m ∧ no_data_message m.
Proof. apply empty_input_keeps_dashboard. reflexivity. Defined.

Lemma refresh_is_repeatable_witness :
  let s1 := Some [parsed_unit alice_unit; corrupt_unit; parsed_unit bob_unit] in
  let s2 := Some [corrupt_unit; parsed_unit alice_unit; parsed_unit bob_unit] in
  aggregate (merged_records s1) = aggregate (merged_records s2)
  ∧ ∃ ui' shown1 shown2 shown3,
      show_dashboard data_folder s1 None = Some (ui', shown1)
      ∧ show_dashboard data_folder s2 None = Some (ui', shown2)
      ∧ show_dashboard data_folder s2 ui' = Some (ui', shown3).
Proof.
  cbv zeta.
  destruct (refresh_is_repeatable data_folder
              (Some [parsed_unit alice_unit; corrupt_unit; parsed_unit bob_unit])
              (Some [corrupt_unit; parsed_unit alice_unit; parsed_unit bob_unit])
              None) as (Hreport & Hreturns & _).
  - simpl. apply perm_swap.
  - split; [exact Hreport|]. apply Hreturns. by_evaluation.
Defined.

(** ** The log tab *)

Section LogHours.
Variable DATA_FOLDER : pystr.
Variable nfd : pystr → pystr.
Variable strptime : pystr → option datetime.
Variable float : pystr → option Py.pyfloat.

Lemma all_nonempty_4 a b c d :
  all_nonempty [a; b; c; d] = true ↔ a ≠ [] ∧ b ≠ [] ∧ c ≠ [] ∧ d ≠ [].
Proof.
  unfold all_nonempty. simpl.
  rewrite !andb_true_iff, !negb_true_iff, !bool_decide_eq_false. tauto.
Qed.

(** A float that is not a NaN is positive exactly when it is not [<= 0]. *)
Lemma float_gt0_le0 x :
  x ≠ Py.NaN → (Py.float_gt0 x = true ↔ Py.float_le0 x = false).
Proof.
  destruct x as [q| | |]; simpl; try done.
  intros _. rewrite bool_decide_eq_true, bool_decide_eq_false.
  split; [apply Qclt_not_le|apply Qcnot_le_lt].
Qed.


Lemma data_row_not_header name date_to_save hours subject :
  [CellStr name; CellStr date_to_save; CellFloat hours; CellStr subject]
  ≠ CSV_HEADER.
Proof. discriminate. Qed.


(** What a call does when the form passes the checks and the file opens. *)
Lemma log_hours_accepts form files date_obj hours :
  Py.strip (name_combobox form) ≠ [] →
  Py.strip (date_entry form) ≠ [] →
  Py.strip (hours_entry form) ≠ [] →
  subject_combobox form ≠ [] →
  strptime (Py.strip (date_entry form)) = Some date_obj →
  float (Py.strip (hours_entry form)) = Some hours →
  Py.float_le0 hours = false →
  let name := Py.strip (name_combobox form) in
  let filename := get_employee_filename DATA_FOLDER nfd name in
  let row := [CellStr name; CellStr (strftime_ymd date_obj);
              CellFloat hours; CellStr (subject_combobox form)] in
  log_hours DATA_FOLDER nfd strptime float form true files
  = (<[filename := default [] (files !! filename)
                   ++ (if bool_decide (is_Some (files !! filename))
                       then [] else [CSV_HEADER]) ++ [row]]> files,
     Success hours name).
Proof.
  intros Hn Hd Hh Hs Hdate Hfloat Hpos. unfold log_hours.
  rewrite (proj2 (all_nonempty_4 _ _ _ _)) by done.
  simpl negb. cbv iota. by rewrite Hdate, Hfloat, Hpos.
Qed.

(** A call that shows the success box passed every check. *)
Lemma log_hours_success form can_open files hours name :
  (log_hours DATA_FOLDER nfd strptime float form can_open files).2
  = Success hours name →
  can_open = true
  ∧ name = Py.strip (name_combobox form)
  ∧ Py.strip (name_combobox form) ≠ []
  ∧ Py.strip (date_entry form) ≠ []
  ∧ Py.strip (hours_entry form) ≠ []
  ∧ subject_combobox form ≠ []
  ∧ float (Py.strip (hours_entry form)) = Some hours
  ∧ Py.float_le0 hours = false
  ∧ ∃ date_obj, strptime (Py.strip (date_entry form)) = Some date_obj.
Proof.
  unfold log_hours.
  destruct (all_nonempty _) eqn:Hall; simpl; [|done].
  apply all_nonempty_4 in Hall as (Hn & Hd & Hh & Hs).
  destruct (strptime _) as [date_obj|]; [|done].
  destruct (float _) as [hours'|]; [|done].
  destruct (Py.float_le0 hours') eqn:Hpos; [done|].
  destruct can_open; [|done]. simpl. intros [= <- <-]. eauto 10.
Qed.

(** A call that does not show the success box writes nothing. *)
Lemma log_hours_failure form can_open files :
  (∀ hours name,
     (log_hours DATA_FOLDER nfd strptime float form can_open files).2
     ≠ Success hours name) →
  (log_hours DATA_FOLDER nfd strptime float form can_open files).1 = files.
Proof.
  unfold log_hours.
  destruct (all_nonempty _); simpl; [|done].
  destruct (strptime _) as [date_obj|]; [|done].
  destruct (float _) as [hours'|]; [|done].
  destruct (Py.float_le0 hours'); [done|].
  destruct can_open; [|done]. simpl. intros Hne. by destruct (Hne _ _ eq_refl).
Qed.


End LogHours.

(** ** The saved date *)

Lemma digit_value n : (48 ≤ digit n ≤ 57 ∧ digit n - 48 = n mod 10)%N.
Proof. unfold digit. zify. Z.to_euclidean_division_equations. lia. Qed.

Lemma is_digit_digit n : Reference.is_digit (digit n) = true.
Proof.
  unfold Reference.is_digit. pose proof (digit_value n).
  apply andb_true_iff. split; apply N.leb_le; lia.
Qed.

Lemma two_digits_value n :
  (n < 100)%N → Reference.digits_value 0 (two_digits n) = Some n.
Proof.
  intros Hn. unfold two_digits. cbn [Reference.digits_value].
  rewrite !is_digit_digit. f_equal.
  destruct (digit_value n) as [_ ->], (digit_value (n / 10)) as [_ ->].
  zify. Z.to_euclidean_division_equations. lia.
Qed.

(** From the year 1000 on the saved date has the form YYYY-MM-DD and reads
    back as the same date. *)
Lemma strftime_ymd_reads_back (d : datetime) :
  (1000 ≤ year d ≤ 9999)%N → (month d < 100)%N → (day d < 100)%N →
  is_ymd (strftime_ymd d) = true ∧ read_ymd (strftime_ymd d) = Some d.
Proof.
  destruct d as [y m dd]. cbn [year month day]. intros Hy Hm Hd.
  unfold strftime_ymd, year_digits. cbn [year month day].
  rewrite !(proj2 (N.ltb_ge _ _)) by lia. split.
  - unfold two_digits. cbn [app is_ymd forallb].
    by rewrite !is_digit_digit.
  - unfold read_ymd. cbn [app two_digits].
    change [digit (m / 10); digit m] with (two_digits m).
    change [digit (dd / 10); digit dd] with (two_digits dd).
    rewrite (two_digits_value m Hm), (two_digits_value dd Hd).
    cbn [Reference.digits_value]. rewrite !is_digit_digit.
    cbn [mbind option_bind]. do 2 f_equal.
    destruct (digit_value y) as [_ ->], (digit_value (y / 10)) as [_ ->],
      (digit_value (y / 100)) as [_ ->], (digit_value (y / 1000)) as [_ ->].
    zify. Z.to_euclidean_division_equations. lia.
Qed.

(** X22: the date that [log_hours] saves has the form YYYY-MM-DD exactly
    from the year 1000 on, and then reads back as the same date; the date
    of an earlier year is written with fewer digits. *)
Theorem strftime_ymd_round_trip (d : datetime) :
  (1 ≤ year d ≤ 9999)%N → (month d < 100)%N → (day d < 100)%N →
  (is_ymd (strftime_ymd d) = true ↔ (1000 ≤ year d)%N)
  ∧ ((1000 ≤ year d)%N → read_ymd (strftime_ymd d) = Some d)
  ∧ ((year d < 1000)%N → (length (strftime_ymd d) < 10)%nat).
Proof.
  intros Hy Hm Hd.
  destruct (N.le_gt_cases 1000 (year d)) as [Hlate|Hearly].
  - destruct (strftime_ymd_reads_back d) as [Hform Hread]; [lia|done|done|].
    split; [by split|]. split; [done|lia].
  - assert (length (strftime_ymd d) < 10)%nat as Hshort.
    { unfold strftime_ymd, year_digits.
      destruct (year d <? 10)%N; [simpl; lia|].
      destruct (year d <? 100)%N; [simpl; lia|].
      rewrite (proj2 (N.ltb_lt _ _)) by done. simpl. lia. }
    split; [|split; [lia|done]].
    split; [|lia]. intros Hform. exfalso.
    destruct (strftime_ymd d) as [|? [|? [|? [|? [|? [|? [|? [|? [|? [|? [|]]]]]]]]]]];
      simpl in *; try done; lia.
Qed.

Section LogFiles.
Variable DATA_FOLDER : pystr.
Variable nfd : pystr → pystr.
Variable strptime : pystr → option datetime.
Variable float : pystr → option Py.pyfloat.

(** What a successful call leaves in the files. *)
Lemma log_hours_appends form can_open files hours name :
  (log_hours DATA_FOLDER nfd strptime float form can_open files).2
  = Success hours name →
  ∃ date_obj,
    name = Py.strip (name_combobox form)
    ∧ strptime (Py.strip (date_entry form)) = Some date_obj
    ∧ float (Py.strip (hours_entry form)) = Some hours
    ∧ let filename := get_employee_filename DATA_FOLDER nfd name in
      let row := [CellStr name; CellStr (strftime_ymd date_obj);
                  CellFloat hours; CellStr (subject_combobox form)] in
      (log_hours DATA_FOLDER nfd strptime float form can_open files).1
      = <[filename := match files !! filename with
                      | Some old => old ++ [row]
                      | None => [CSV_HEADER; row]
                      end]> files.
Proof.
  intros Hok.
  destruct (log_hours_success _ _ _ _ _ _ _ _ _ Hok)
    as (-> & -> & Hn & Hd & Hh & Hs & Hfloat & Hpos & date_obj & Hdate).
  exists date_obj. repeat (split; [done|]). cbv zeta.
  rewrite (log_hours_accepts _ _ _ _ form files date_obj hours) by done.
  cbn [fst]. f_equal.
  destruct (files !! _) as [old|].
  - by rewrite bool_decide_true by eauto.
  - by rewrite bool_decide_false by (by intros [? ?]).
Qed.




End LogFiles.

Example strftime_ymd_example :
  Reference.strptime_dmy (str "06-01-2025") = Some (mkDate 2025 1 6)
  ∧ strftime_ymd (mkDate 2025 1 6) = str "2025-01-06".
Proof. split; reflexivity. Qed.

Lemma strftime_ymd_round_trip_witness :
  (is_ymd (str "2025-01-06") = true ↔ (1000 ≤ 2025)%N)
  ∧ ((1000 ≤ 2025)%N → read_ymd (str "2025-01-06") = Some (mkDate 2025 1 6))
  ∧ ((2025 < 1000)%N → (length (str "2025-01-06") < 10)%nat).
Proof. apply (strftime_ymd_round_trip (mkDate 2025 1 6)); simpl; lia. Defined.

(** C10 (the code at a date before the year 1000): the form is accepted,
    [strptime] reads the year 999, and the row is saved with the date cell
    "999-01-06", which is not of the form YYYY-MM-DD. *)
Theorem early_year_date_cell :
  let run :=
    log_hours data_folder Reference.nfd_ascii Reference.strptime_dmy
      Reference.float_decimal early_year_form true no_files in
  Reference.strptime_dmy (str "06-01-0999") = Some (mkDate 999 1 6)
  ∧ run.2 = Success (Py.Finite (Qc_of_Z 7 / Qc_of_Z 2)) (str "Alice")
  ∧ run.1 !! alice_path
    = Some [CSV_HEADER;
            [CellStr (str "Alice"); CellStr (str "999-01-06");
             CellFloat (Py.Finite (Qc_of_Z 7 / Qc_of_Z 2));
             CellStr (str "Meetings")]]
  ∧ is_ymd (str "999-01-06") = false
  ∧ is_ymd (str "0999-01-06") = true.
Proof. cbv zeta. repeat split; by_evaluation. Qed.




(** Hours typed as "nan" pass the check [hours <= 0] and are logged. *)
Example nan_hours_are_logged :
  (log_hours data_folder Reference.nfd_ascii Reference.strptime_dmy
     Reference.float_decimal nan_form true no_files).2
  = Success Py.NaN (str "Alice").
Proof. reflexivity. Qed.

(** * Further properties *)

(** ** Strings *)

Section Strings.
Import Py.

Lemma startswith_app p s : startswith p (p ++ s) = true.
Proof.
  induction p as [|c p IH]; [done|]. simpl. by rewrite N.eqb_refl, IH.
Qed.

Lemma endswith_app s suffix : endswith (s ++ suffix) suffix = true.
Proof. unfold endswith. rewrite rev_app_distr. apply startswith_app. Qed.

Lemma path_join_endswith a b suffix :
  endswith b suffix = true → endswith (path_join a b) suffix = true.
Proof.
  intros Hb. unfold path_join.
  assert (∀ x, endswith (x ++ b) suffix = true) as Happ.
  { intros x. unfold endswith in *. rewrite rev_app_distr.
    revert Hb. generalize (rev suffix) (rev b) (rev x). clear.
    intros p. induction p as [|c p IH]; intros [|d l] x; simpl; try done.
    intros [Hc Hp]%andb_true_iff. by rewrite Hc, IH. }
  destruct (startswith (str "/") b); [done|].
  destruct (_ || _); [apply Happ|].
  rewrite (assoc (++)). apply Happ.
Qed.

Lemma lstrip_Forall (P : N → Prop) s : Forall P s → Forall P (lstrip s).
Proof.
  induction 1 as [|c s Hc Hs IH]; simpl; [constructor|].
  destruct (isspace c); [done|by constructor].
Qed.

Lemma strip_Forall (P : N → Prop) s : Forall P s → Forall P (strip s).
Proof.
  intros Hs. unfold strip, rstrip.
  apply Forall_rev, lstrip_Forall, Forall_rev, lstrip_Forall, Hs.
Qed.

Lemma lstrip_head s :
  lstrip s = [] ∨ ∃ c t, lstrip s = c :: t ∧ isspace c = false.
Proof.
  induction s as [|c s IH]; simpl; [by left|].
  destruct (isspace c) eqn:Hc; [done|]. right. eauto.
Qed.

Lemma lstrip_nonspace c s : isspace c = false → lstrip (c :: s) = c :: s.
Proof. intros Hc. simpl. by rewrite Hc. Qed.

Lemma lstrip_app_nonspace u c v :
  isspace c = false → lstrip (u ++ c :: v) = lstrip u ++ c :: v.
Proof.
  intros Hc. induction u as [|d u IH]; simpl; [by rewrite Hc|].
  by destruct (isspace d).
Qed.

Lemma rstrip_nonspace c s : isspace c = false → rstrip (c :: s) = c :: rstrip s.
Proof.
  intros Hc. unfold rstrip. simpl rev at 2.
  by rewrite lstrip_app_nonspace, rev_app_distr by done.
Qed.

Lemma rstrip_idemp s : rstrip (rstrip s) = rstrip s.
Proof.
  unfold rstrip. rewrite rev_involutive. f_equal.
  destruct (lstrip_head (rev s)) as [->|(c & t & -> & Hc)]; [done|].
  by apply lstrip_nonspace.
Qed.

(** A stripped string has no white space at either end: stripping it again
    changes nothing. *)
Lemma strip_idemp s : strip (strip s) = strip s.
Proof.
  unfold strip.
  destruct (lstrip_head s) as [->|(c & t & -> & Hc)]; [done|].
  rewrite rstrip_nonspace, lstrip_nonspace by done.
  by rewrite <-rstrip_nonspace, rstrip_idemp by done.
Qed.

End Strings.

(** ** The employee file *)

Section EmployeeFile.
Variable DATA_FOLDER : pystr.
Variable nfd : pystr → pystr.

Lemma get_employee_filename_base name :
  get_employee_filename DATA_FOLDER nfd name
  = Py.path_join DATA_FOLDER (safe_filename_base nfd name ++ str "_hours.csv").
Proof. reflexivity. Qed.

(** X1: whatever the name, the employee file has a name that ends with
    "_hours.csv", the files that the dashboard and the name box read. *)
Theorem employee_file_is_storage_unit name :
  Py.endswith (get_employee_filename DATA_FOLDER nfd name) (str "_hours.csv")
  = true.
Proof.
  rewrite get_employee_filename_base.
  apply path_join_endswith, endswith_app.
Qed.

(** X2: the part of the file name made of the name holds only ASCII
    characters, none of them a space or a capital letter. *)
Theorem safe_filename_base_chars name :
  Forall safe_char (safe_filename_base nfd name).
Proof.
  unfold safe_filename_base.
  assert (Forall (λ c, c < 128)%N
            (Py.strip (Py.encode_ascii_ignore (nfd name)))) as Hascii.
  { apply strip_Forall. unfold Py.encode_ascii_ignore.
    apply Forall_forall. by intros c [? _]%list_elem_of_filter. }
  revert Hascii. generalize (Py.strip (Py.encode_ascii_ignore (nfd name))).
  intros s Hs. unfold Py.lower_ascii, Py.replace1.
  rewrite <-list_fmap_compose. apply Forall_fmap.
  eapply Forall_impl; [exact Hs|]. intros c Hc. unfold compose, safe_char.
  cbv beta in Hc.
  destruct (N.eqb_spec c 32) as [->|Hne]; [simpl; lia|].
  destruct (N.leb_spec 65 c), (N.leb_spec c 90); simpl; lia.
Qed.

(** X3: for a name whose ASCII form holds no slash, the employee file is an
    entry of the data folder itself: its path is the data folder, a slash
    unless the folder is empty or ends with one, and a file name without a
    slash.  (A name with a slash leads elsewhere, see
    [names_that_leave_the_folder].) *)
Theorem employee_file_in_folder name :
  47%N ∉ safe_filename_base nfd name →
  let file := safe_filename_base nfd name ++ str "_hours.csv" in
  (47%N ∉ file)
  ∧ ∃ sep,
      (sep = if bool_decide (DATA_FOLDER = []) || Py.endswith DATA_FOLDER (str "/")
             then [] else str "/")
      ∧ get_employee_filename DATA_FOLDER nfd name = DATA_FOLDER ++ sep ++ file.
Proof.
  intros Hbase file.
  assert (47%N ∉ file) as Hfile.
  { unfold file. rewrite elem_of_app. intros [?|Hin]; [done|].
    revert Hin. by_evaluation. }
  split; [done|]. eexists. split; [done|].
  rewrite get_employee_filename_base. fold file. unfold Py.path_join.
  destruct file as [|c file'] eqn:Hf.
  - by destruct (_ || _); rewrite !app_nil_r.
  - assert (c ≠ 47%N) as Hc by (intros ->; apply Hfile; left).
    cbn [Py.startswith str fmap list_fmap list_ascii_of_string].
    change (N_of_ascii "/") with 47%N.
    rewrite (proj2 (N.eqb_neq 47 c)) by done. cbn [andb].
    by destruct (_ || _).
Qed.

End EmployeeFile.

Lemma employee_file_in_folder_witness :
  let file := str "alice_smith_hours.csv" in
  (47%N ∉ file)
  ∧ ∃ sep,
      sep = str "/"
      ∧ get_employee_filename data_folder Reference.nfd_ascii (str "Alice Smith")
        = data_folder ++ sep ++ file.
Proof.
  apply (employee_file_in_folder data_folder Reference.nfd_ascii
           (str "Alice Smith")).
  by_evaluation.
Defined.

(** A name with a slash in front gives an absolute path, without the data
    folder; a name with [..] steps gives a path that climbs out of it. *)
Example names_that_leave_the_folder :
  get_employee_filename data_folder Reference.nfd_ascii slash_name
  = str "/tmp/eve_hours.csv"
  ∧ get_employee_filename data_folder Reference.nfd_ascii climbing_name
    = str "/srv/tracker/hour_tracking_files/../../etc/eve_hours.csv".
Proof. split; reflexivity. Qed.

(** ** More on the log tab *)

Section LogTabProperties.
Variable DATA_FOLDER : pystr.
Variable nfd : pystr → pystr.
Variable strptime : pystr → option datetime.
Variable float : pystr → option Py.pyfloat.

(** The two outcomes of a call: a row appended to one file under the success
    box, or nothing written under another box. *)
Lemma log_hours_outcome form can_open files :
  (∃ hours name date_obj,
     log_hours DATA_FOLDER nfd strptime float form can_open files
     = (<[get_employee_filename DATA_FOLDER nfd name :=
            match files !! get_employee_filename DATA_FOLDER nfd name with
            | Some old =>
                old ++ [[CellStr name; CellStr (strftime_ymd date_obj);
                         CellFloat hours; CellStr (subject_combobox form)]]
            | None =>
                [CSV_HEADER;
                 [CellStr name; CellStr (strftime_ymd date_obj);
                  CellFloat hours; CellStr (subject_combobox form)]]
            end]> files, Success hours name)
     ∧ name = Py.strip (name_combobox form))
  ∨ ((log_hours DATA_FOLDER nfd strptime float form can_open files).1 = files
     ∧ ∀ hours name,
         (log_hours DATA_FOLDER nfd strptime float form can_open files).2
         ≠ Success hours name).
Proof.
  destruct (log_hours DATA_FOLDER nfd strptime float form can_open files)
    as [files' msg] eqn:Hrun.
  pose proof (log_hours_appends DATA_FOLDER nfd strptime float
                form can_open files) as Hok.
  pose proof (log_hours_failure DATA_FOLDER nfd strptime float
                form can_open files) as Hfail.
  rewrite Hrun in Hok, Hfail. simpl in *.
  destruct msg as [| | | | | | | |hours name|];
    try (right; split; [apply Hfail|]; intros; discriminate).
  left. destruct (Hok _ _ eq_refl) as (date_obj & Hname & _ & _ & ->).
  by exists hours, name, date_obj.
Qed.


(** A call keeps the rows of a file that exists. *)
Lemma log_hours_keeps_rows form can_open files path old :
  files !! path = Some old →
  ∃ new,
    (log_hours DATA_FOLDER nfd strptime float form can_open files).1 !! path
    = Some (old ++ new)
    ∧ (new = [] ∨ ∃ row, new = [row] ∧ is_data_row row ∧ row ≠ CSV_HEADER).
Proof.
  intros Hold.
  destruct (log_hours_outcome form can_open files)
    as [(hours & name & date_obj & -> & _)|[-> _]]; simpl.
  - destruct (decide (get_employee_filename DATA_FOLDER nfd name = path))
      as [<-|Hne].
    + rewrite lookup_insert_eq, Hold. eexists. split; [done|]. right.
      eexists. split; [done|].
      split; [by eexists _, _, _, _|apply data_row_not_header].
    + rewrite lookup_insert_ne by done. exists []. rewrite app_nil_r. auto.
  - exists []. rewrite app_nil_r. auto.
Qed.

(** X5: a call leaves every file but the employee file as it is, and keeps
    the rows of a file that exists: at most one row, a data row, comes after
    them. *)
Theorem log_hours_append_only form can_open files path :
  (path ≠ get_employee_filename DATA_FOLDER nfd (Py.strip (name_combobox form)) →
   (log_hours DATA_FOLDER nfd strptime float form can_open files).1 !! path
   = files !! path)
  ∧ (∀ old, files !! path = Some old →
       ∃ new,
         (log_hours DATA_FOLDER nfd strptime float form can_open files).1 !! path
         = Some (old ++ new)
         ∧ (new = [] ∨ ∃ row, new = [row] ∧ is_data_row row ∧ row ≠ CSV_HEADER)).
Proof.
  split; [|apply log_hours_keeps_rows].
  destruct (log_hours_outcome form can_open files)
    as [(hours & name & date_obj & -> & <-)|[-> _]]; simpl; [|done].
  intros Hpath. by rewrite lookup_insert_ne.
Qed.

(** X6: a session of the log tab only appends: a file that exists keeps its
    rows, in their order, and gets data rows after them, never a header. *)
Theorem log_session_append_only calls files path old :
  files !! path = Some old →
  ∃ new,
    log_session DATA_FOLDER nfd strptime float calls files !! path
    = Some (old ++ new)
    ∧ Forall (λ row, is_data_row row ∧ row ≠ CSV_HEADER) new.
Proof.
  unfold log_session. revert files old.
  induction calls as [|[form can_open] calls IH]; intros files old Hold.
  - exists []. by rewrite app_nil_r.
  - simpl.
    destruct (log_hours_keeps_rows form can_open files path old Hold)
      as (new & Hnew & Hrows).
    destruct (IH _ _ Hnew) as (new' & Hnew' & Hrows').
    exists (new ++ new'). split; [by rewrite (assoc (++))|].
    apply Forall_app. split; [|done].
    destruct Hrows as [->|(row & -> & Hrow)]; [apply Forall_nil_2|].
    apply Forall_cons_2; [exact Hrow|apply Forall_nil_2].
Qed.




(** X8: what a successful call stores has a name that is not empty and has
    no white space at either end, a subject that is not empty, and hours
    that are greater than 0 or a NaN. *)
Theorem logged_row_is_clean form can_open files hours name :
  (log_hours DATA_FOLDER nfd strptime float form can_open files).2 = Success hours name →
  name ≠ [] ∧ Py.strip name = name
  ∧ subject_combobox form ≠ []
  ∧ (Py.float_gt0 hours = true ∨ hours = Py.NaN)
  ∧ float (Py.strip (hours_entry form)) = Some hours.
Proof.
  intros Hok.
  destruct (log_hours_success _ _ _ _ _ _ _ _ _ Hok)
    as (_ & -> & Hn & _ & _ & Hs & Hfloat & Hpos & _).
  split; [done|]. split; [apply strip_idemp|]. split; [done|].
  split; [|done].
  destruct (decide (hours = Py.NaN)) as [|Hnan]; [by right|left].
  by apply float_gt0_le0.
Qed.

End LogTabProperties.

(** ** The list behind the name box *)

Section Sorting.

Lemma omap_id_fmap_Some {A} (l : list A) : omap id (Some <$> l) = l.
Proof. induction l as [|x l IH]; [done|]. simpl. by f_equal. Qed.

Lemma omap_id_length {A} (l : list (option A)) :
  (length (omap id l) ≤ length l)%nat
  ∧ (None ∈ l → length (omap id l) < length l)%nat.
Proof.
  induction l as [|[x|] l [IH1 IH2]].
  - split; [done|]. by intros ?%elem_of_nil.
  - change (omap id (Some x :: l)) with (x :: omap id l). cbn [length].
    split; [lia|]. intros [?|Hin]%elem_of_cons; [done|].
    specialize (IH2 Hin). lia.
  - change (omap id (None :: l)) with (omap id l). cbn [length].
    split; [lia|]. intros _. lia.
Qed.

(** Texts alone are put in order. *)
Lemma sorted_texts (strs : list pystr) :
  Py.sorted (Some <$> strs) = Some (Some <$> merge_sort Py.str_le strs).
Proof.
  unfold Py.sorted. rewrite omap_id_fmap_Some, length_fmap.
  by rewrite bool_decide_true.
Qed.

(** A text beside a NaN makes the sort raise. *)
Lemma sorted_mixed (l : list (option pystr)) name :
  None ∈ l → Some name ∈ l → Py.sorted l = None.
Proof.
  intros Hnan Hname. unfold Py.sorted.
  rewrite bool_decide_false by (apply omap_id_length in Hnan; lia).
  rewrite bool_decide_false; [done|]. intros Hnil.
  assert (name ∈ omap id l) as Hin by (apply list_elem_of_omap; eauto).
  rewrite Hnil in Hin. by apply elem_of_nil in Hin.
Qed.

End Sorting.

Lemma add_existing_name_spec name names :
  Sorted Py.str_le names → NoDup names →
  ∃ names',
    add_existing_name name (Some <$> names) = Some (Some <$> names')
    ∧ Sorted Py.str_le names' ∧ NoDup names'
    ∧ ∀ n, n ∈ names' ↔ n = name ∨ n ∈ names.
Proof.
  intros Hsorted Hnodup. unfold add_existing_name.
  assert (Some name ∈ Some <$> names ↔ name ∈ names) as Hmem.
  { rewrite list_elem_of_fmap. split; [by intros (n & [= ->] & ?)|eauto]. }
  case_bool_decide as Hin.
  - exists names. split; [done|]. split; [done|]. split; [done|].
    intros n. split; [auto|]. intros [->|?]; [by apply Hmem|done].
  - exists (merge_sort Py.str_le (names ++ [name])).
    change [Some name] with (Some <$> [name]).
    rewrite <-fmap_app, sorted_texts. split; [done|].
    split; [apply (Sorted_merge_sort _)|]. split.
    + rewrite merge_sort_Permutation. apply NoDup_app.
      split; [done|]. split; [|apply NoDup_singleton].
      intros n Hn ->%list_elem_of_singleton. by apply Hin, Hmem.
    + intros n. rewrite merge_sort_Permutation, elem_of_app, list_elem_of_singleton.
      tauto.
Qed.

Lemma add_existing_name_nan name existing_names :
  None ∈ existing_names → Some name ∉ existing_names →
  add_existing_name name existing_names = None.
Proof.
  intros Hnan Hnew. unfold add_existing_name.
  rewrite bool_decide_false by done.
  apply (sorted_mixed _ name); rewrite elem_of_app, list_elem_of_singleton; auto.
Qed.

Section NameBox.
Variable DATA_FOLDER : pystr.
Variable nfd : pystr → pystr.
Variable strptime : pystr → option datetime.
Variable float : pystr → option Py.pyfloat.

(** X9: on a list of texts that is sorted and free of duplicates, a session
    of the log tab raises nothing and keeps the list behind the name box a
    sorted list of texts without duplicates, and the names in it afterwards
    are the ones it had and the names of the successful calls.  On a list
    that holds a NaN, which the names read at start-up can, the first
    successful call with a new name is left by the [TypeError] of the
    sort. *)
Theorem name_box_invariant calls files names :
  Sorted Py.str_le names → NoDup names →
  (∃ names',
     log_session_names DATA_FOLDER nfd strptime float calls files (Some <$> names)
     = Some (Some <$> names')
     ∧ Sorted Py.str_le names' ∧ NoDup names'
     ∧ ∀ n, n ∈ names'
         ↔ n ∈ names
           ∨ ∃ hours, Success hours n
                ∈ log_session_messages DATA_FOLDER nfd strptime float calls files)
  ∧ (∀ form can_open existing_names hours name,
       (log_hours DATA_FOLDER nfd strptime float form can_open files).2
       = Success hours name →
       None ∈ existing_names → Some name ∉ existing_names →
       log_hours_names DATA_FOLDER nfd strptime float form can_open files
         existing_names = None).
Proof.
  intros Hsorted Hnodup. split; cycle 1.
  { intros form can_open existing_names hours name Hok Hnan Hnew.
    unfold log_hours_names. rewrite Hok. by apply add_existing_name_nan. }
  revert files names Hsorted Hnodup.
  induction calls as [|[form can_open] calls IH];
    intros files names Hsorted Hnodup.
  - exists names. split; [done|]. split; [done|]. split; [done|].
    intros n. split; [auto|].
    intros [?|[hours Hin]]; [done|]. by apply elem_of_nil in Hin.
  - cbn [log_session_names log_session_messages fst snd].
    set (result := log_hours DATA_FOLDER nfd strptime float form can_open files).
    assert (∃ names1,
              log_hours_names DATA_FOLDER nfd strptime float
                form can_open files (Some <$> names) = Some (Some <$> names1)
              ∧ Sorted Py.str_le names1 ∧ NoDup names1
              ∧ ∀ n, n ∈ names1
                  ↔ n ∈ names ∨ ∃ hours, result.2 = Success hours n)
      as (names1 & -> & Hsorted1 & Hnodup1 & Hin1).
    { unfold log_hours_names. fold result.
      destruct result.2 as [| | | | | | | |hours name|];
        try (exists names; split; [done|]; split; [done|]; split; [done|];
             intros n; split; [auto|]; by intros [?|[? ?]]).
      destruct (add_existing_name_spec name names Hsorted Hnodup)
        as (names1 & Hadd & ? & ? & Hin).
      exists names1. split; [done|]. split; [done|]. split; [done|].
      intros n. rewrite Hin. split.
      - intros [->|?]; eauto.
      - intros [?|[? [= _ ->]]]; auto. }
    cbn [mbind option_bind].
    destruct (IH result.1 _ Hsorted1 Hnodup1) as (names' & -> & ? & ? & Hin).
    exists names'. split; [done|]. split; [done|]. split; [done|].
    intros n. rewrite Hin, Hin1.
    setoid_rewrite elem_of_cons. split.
    + intros [[?|[hours ?]]|[hours ?]]; eauto.
    + intros [?|[hours [?|?]]]; eauto.
Qed.

End NameBox.

(** ** The names read at start-up *)

Section ExistingNames.

Lemma collected_names (units : list (pystr * ReadResult)) (acc : NameSet) :
  foldl collect_names acc units
  = (acc.1 ∪ list_to_set (omap row_name (concat (unit_records <$> units))),
     (acc.2 + nameless_units units)%nat).
Proof.
  revert acc. unfold nameless_units.
  induction units as [|[f [e|df]] units IH]; intros [strs nans].
  - simpl. by rewrite (right_id_L ∅ (∪)), Nat.add_0_r.
  - cbn [foldl]. rewrite IH. unfold collect_names. cbn [fst snd fmap list_fmap concat].
    rewrite filter_cons, decide_False; [done|].
    unfold unit_records. simpl. by intros ?%elem_of_nil.
  - cbn [foldl]. rewrite IH. unfold collect_names. cbn [fst snd].
    rewrite fmap_cons. cbn [concat]. rewrite omap_app, list_to_set_app_L.
    rewrite filter_cons. unfold unit_records at 1 3. cbn [snd].
    case_bool_decide as Hdf.
    + subst df. cbn [fst snd]. rewrite decide_False by (by intros ?%elem_of_nil).
      simpl. by rewrite (left_id_L ∅ (∪)).
    + cbn [fst snd]. rewrite (assoc_L (∪)). f_equal.
      case_bool_decide as Hnan.
      * rewrite decide_True by done. cbn [length]. by rewrite Nat.add_succ_r.
      * by rewrite decide_False by done.
Qed.

(** The method sorts the distinct texts of the name cells of the merged
    records, with a NaN for each unit that has a missing name cell. *)
Lemma get_existing_names_closed storage :
  _get_existing_names storage
  = sorted_names
      (list_to_set (omap row_name (merged_records storage)),
       nameless_units (default [] (storage_units <$> storage))).
Proof.
  destruct storage as [listing|]; [|done]. unfold _get_existing_names.
  fold (storage_units listing). case_bool_decide as Hunits.
  - simpl. by rewrite Hunits.
  - rewrite collected_names. simpl. by rewrite (left_id_L ∅ (∪)).
Qed.

(** X12: the names read at start-up do not depend on the order in which the
    files are listed. *)
Theorem name_box_order_independent s1 s2 :
  same_snapshot s1 s2 → _get_existing_names s1 = _get_existing_names s2.
Proof.
  intros Hsame. rewrite !get_existing_names_closed. do 2 f_equal.
  - apply list_to_set_perm_L. by rewrite (merged_records_snapshot _ _ Hsame).
  - destruct s1 as [l1|], s2 as [l2|]; try done. simpl in *.
    unfold nameless_units, storage_units. by rewrite Hsame.
Qed.

End ExistingNames.

(** ** More on the dashboard *)

Section DashboardProperties.
Variable DATA_FOLDER : pystr.

(** X13: files of the data folder whose names do not end with "_hours.csv"
    change neither the refresh nor the names read at start-up, wherever they
    stand in the listing. *)
Theorem other_files_are_ignored l1 others l2 ui :
  Forall (λ f, Py.endswith f.1 (str "_hours.csv") = false) others →
  show_dashboard DATA_FOLDER (Some (l1 ++ others ++ l2)) ui
  = show_dashboard DATA_FOLDER (Some (l1 ++ l2)) ui
  ∧ _get_existing_names (Some (l1 ++ others ++ l2))
    = _get_existing_names (Some (l1 ++ l2)).
Proof.
  intros Hothers.
  assert (storage_units (l1 ++ others ++ l2) = storage_units (l1 ++ l2))
    as Hunits.
  { unfold storage_units. rewrite !filter_app.
    replace (filter _ others) with (@nil (pystr * ReadResult)); [done|].
    symmetry. induction Hothers as [|f l Hf _ IH]; [done|].
    rewrite filter_cons, decide_False by (by rewrite Hf). exact IH. }
  rewrite !show_dashboard_closed, !get_existing_names_closed.
  unfold dashboard_after, refresh_messages, merged_records.
  cbn [default fmap option_fmap option_map]. by rewrite Hunits.
Qed.

(** X21: a storage unit that reads and holds a date cell that is no date
    makes the refresh raise: the conversion of line 238 is outside the
    [try] of the loop, so one such cell, in whatever unit, takes the report
    of all units away. *)
Theorem bad_date_aborts_refresh listing ui f df r :
  (f, Parsed df) ∈ listing → Py.endswith f (str "_hours.csv") = true →
  r ∈ df → row_date_cell r = NotADate →
  show_dashboard DATA_FOLDER (Some listing) ui = None.
Proof.
  intros Hu Hf Hr Hbad. rewrite show_dashboard_closed.
  rewrite bool_decide_false; [done|]. intros Hparse.
  unfold dates_parse in Hparse. rewrite Forall_forall in Hparse.
  assert (is_date (row_date_cell r) = true) as Hdate; [|by rewrite Hbad in Hdate].
  apply Hparse. simpl. apply list_elem_of_In, in_concat. exists df.
  rewrite <-!list_elem_of_In. split; [|done].
  apply list_elem_of_fmap. exists (f, Parsed df). split; [done|].
  by apply list_elem_of_filter.
Qed.

End DashboardProperties.

Lemma bad_date_aborts_refresh_witness :
  show_dashboard data_folder
    (Some [parsed_unit alice_unit; parsed_unit undated_unit; parsed_unit bob_unit])
    None
  = None.
Proof.
  apply (bad_date_aborts_refresh data_folder _ None (str "erin_hours.csv")
           undated_unit.2
           (mkRow (Some (str "Erin")) NotADate (Qc_of_Z 4)
              (Some (str "Meetings")))).
  - right. left.
  - reflexivity.
  - left.
  - reflexivity.
Defined.

(** With Erin's unit, whose date cell is no date, between the units of
    Alice and Bob the refresh raises; without it their report is shown. *)
Example undated_unit_aborts_refresh :
  show_dashboard data_folder
    (Some [parsed_unit alice_unit; parsed_unit undated_unit; parsed_unit bob_unit])
    None
  = None
  ∧ show_dashboard data_folder
      (Some [parsed_unit alice_unit; parsed_unit bob_unit]) None
    = Some (Some (aggregate (alice_unit.2 ++ bob_unit.2)), []).
Proof. split; by_evaluation. Qed.

Section WeeklyProperties.
Import Pandas.

(** X15: every label of the weekly series is the midnight of a Monday. *)
Theorem weekly_labels_are_mondays df L h :
  (L, h) ∈ weekly_hours df → weekday L = MON ∧ normalize L = L.
Proof.
  destruct df as [|r rs]; [by intros ?%elem_of_nil|].
  rewrite weekly_hours_weeks, list_elem_of_fmap.
  intros (M & [= -> ->] & HM%week_starts_monday).
  by rewrite weekday_to_datetime, normalize_to_datetime.
Qed.

(** X16: a record that is not dated on a Monday is counted in the entry
    labelled by the Monday before its date, at most six days earlier. *)
Theorem weekday_record_in_own_week df r :
  r ∈ df →
  weekday (to_datetime (row_date r)) ≠ MON →
  let L := to_datetime (row_date r - weekday (to_datetime (row_date r))) in
  (L, sum_hours (week_rows L df)) ∈ weekly_hours df
  ∧ r ∈ week_rows L df
  ∧ weekday L = MON
  ∧ L < to_datetime (row_date r) < L + 7 * NS_PER_DAY.
Proof.
  intros Hr Hday. rewrite <-(monday_before_other _ Hday). cbv zeta.
  destruct (weekly_hours_attribution df r Hr) as [Hentry Hrow].
  split; [done|]. split; [done|].
  split; [by rewrite weekday_to_datetime, monday_before_weekday|].
  replace (to_datetime (monday_before (row_date r)) + 7 * NS_PER_DAY)
    with (to_datetime (monday_before (row_date r) + 7))
    by (unfold to_datetime; ring).
  rewrite !to_datetime_lt.
  rewrite weekday_to_datetime in Hday. unfold MON, monday_before in *.
  Z.div_mod_to_equations. lia.
Qed.

(** X17: records that all fall in one weekly bin, and so the records of one
    day, give a series of one entry, which holds the total. *)
Theorem one_week_one_entry df M :
  df ≠ [] → Forall (λ r, monday_before (row_date r) = M) df →
  weekly_hours df = [(to_datetime M, sum_hours df)].
Proof.
  destruct df as [|r rs]; [done|]. intros _ Hweek.
  rewrite Forall_forall in Hweek.
  assert (first_day r rs ∈ row_date <$> r :: rs)
    as (r1 & Hr1 & Hin1)%list_elem_of_fmap by apply list_min_elem.
  assert (last_day r rs ∈ row_date <$> r :: rs)
    as (r2 & Hr2 & Hin2)%list_elem_of_fmap by apply list_max_elem.
  rewrite weekly_hours_weeks. unfold week_starts.
  rewrite Hr1, Hr2, (Hweek _ Hin1), (Hweek _ Hin2), Z.sub_diag.
  simpl. rewrite Z.add_0_r. do 2 f_equal.
  rewrite week_rows_monday by (rewrite <-(Hweek _ Hin1); apply monday_before_weekday).
  by apply sum_hours_filter_True.
Qed.

End WeeklyProperties.

(** ** Positive hours *)

Section PositiveHours.

Lemma sum_hours_nonneg df : positive_hours df → (0 ≤ sum_hours df)%Qc.
Proof.
  induction 1 as [|r df Hr _ IH]; [done|]. rewrite sum_hours_cons.
  apply Qcplus_nonneg_nonneg; [by apply Qclt_le_weak|done].
Qed.

Lemma sum_hours_pos df : positive_hours df → df ≠ [] → (0 < sum_hours df)%Qc.
Proof.
  intros Hpos Hne. destruct Hpos as [|r df Hr Hdf]; [done|].
  rewrite sum_hours_cons. apply Qcplus_pos_nonneg; [done|].
  by apply sum_hours_nonneg.
Qed.

Lemma positive_hours_filter (P : Row → Prop) `{∀ r, Decision (P r)} df :
  positive_hours df → positive_hours (filter P df).
Proof.
  unfold positive_hours. induction 1 as [|r df Hr _ IH]; [constructor|].
  rewrite filter_cons. destruct (decide (P r)); [by constructor|done].
Qed.

Lemma sum_hours_filter_le (P : Row → Prop) `{∀ r, Decision (P r)} df :
  positive_hours df → (sum_hours (filter P df) ≤ sum_hours df)%Qc.
Proof.
  induction 1 as [|r df Hr _ IH]; [done|].
  rewrite filter_cons. destruct (decide (P r)).
  - rewrite !sum_hours_cons. by apply Qcplus_le_mono_l.
  - rewrite sum_hours_cons. etrans; [exact IH|].
    rewrite <-(Qcplus_0_l (sum_hours df)) at 1.
    apply Qcplus_le_mono_r. by apply Qclt_le_weak.
Qed.

(** X18: when all hours are positive, an entry of the weekly series is 0
    exactly for a week without records and positive for any other. *)
Theorem weekly_entry_zero_iff_empty df L h :
  positive_hours df → (L, h) ∈ weekly_hours df →
  (0 ≤ h)%Qc ∧ (h = 0%Qc ↔ week_rows L df = []).
Proof.
  intros Hpos Hin. destruct df as [|r rs]; [by apply elem_of_nil in Hin|].
  rewrite weekly_hours_weeks, list_elem_of_fmap in Hin.
  destruct Hin as (M & [= -> ->] & _).
  assert (positive_hours (week_rows (Pandas.to_datetime M) (r :: rs))) as Hrows
    by (by apply positive_hours_filter).
  split; [by apply sum_hours_nonneg|]. split; [|by intros ->].
  intros Hzero. destruct (week_rows _ _) as [|r' rs'] eqn:Hweek; [done|].
  pose proof (sum_hours_pos _ Hrows) as Hgt. rewrite Hzero in Hgt.
  by destruct (Qclt_not_eq _ _ (Hgt ltac:(done))).
Qed.

(** X19: when all hours are positive, every sum of a grouped table is
    positive and at most the total. *)
Theorem grouped_sums_positive (key : Row → option pystr) df k h :
  positive_hours df → (k, h) ∈ groupby_sum key df →
  (0 < h)%Qc ∧ (h ≤ sum_hours df)%Qc.
Proof.
  intros Hpos Hin.
  apply groupby_sum_entry in Hin as [(r & Hr & Hk) ->].
  split; [|by apply sum_hours_filter_le].
  apply sum_hours_pos; [by apply positive_hours_filter|].
  intros Hnil. assert (r ∈ filter (λ r, key r = Some k) df) as Hin
    by (by apply list_elem_of_filter).
  rewrite Hnil in Hin. by apply elem_of_nil in Hin.
Qed.

End PositiveHours.

(** ** White space around the entries *)

Section Padding.
Import Py.

Lemma lstrip_space_app ws s : all_space ws → lstrip (ws ++ s) = lstrip s.
Proof. induction 1 as [|c ws Hc _ IH]; [done|]. simpl. by rewrite Hc. Qed.

Lemma lstrip_all_space ws : all_space ws → lstrip ws = [].
Proof. intros Hws. rewrite <-(app_nil_r ws). by rewrite lstrip_space_app. Qed.

Lemma rstrip_app_space s ws : all_space ws → rstrip (s ++ ws) = rstrip s.
Proof.
  intros Hws. unfold rstrip. rewrite rev_app_distr, lstrip_space_app; [done|].
  by apply Forall_rev.
Qed.

Lemma lstrip_nil_all_space s : lstrip s = [] → all_space s.
Proof.
  induction s as [|c s IH]; simpl; [constructor|].
  destruct (isspace c) eqn:Hc; [|done]. intros Hs.
  apply Forall_cons_2; [exact Hc|by apply IH].
Qed.

Lemma lstrip_app_l s t : lstrip s ≠ [] → lstrip (s ++ t) = lstrip s ++ t.
Proof.
  induction s as [|c s IH]; simpl; [done|].
  destruct (isspace c); [exact IH|done].
Qed.

(** White space put at either end is stripped away with the rest. *)
Lemma strip_padding ws1 s ws2 :
  all_space ws1 → all_space ws2 → strip (ws1 ++ s ++ ws2) = strip s.
Proof.
  intros H1 H2. unfold strip. rewrite lstrip_space_app by done.
  destruct (lstrip s) as [|c t] eqn:Hs.
  - rewrite lstrip_all_space; [done|].
    apply Forall_app. split; [by apply lstrip_nil_all_space|done].
  - rewrite lstrip_app_l by (by rewrite Hs). rewrite Hs.
    by apply rstrip_app_space.
Qed.

End Padding.

Section PaddedForms.
Variable DATA_FOLDER : pystr.
Variable nfd : pystr → pystr.
Variable strptime : pystr → option datetime.
Variable float : pystr → option Py.pyfloat.

(** X20: white space around the name, the date and the hours does not change
    what a call does: the same files and the same message box. *)
Theorem log_hours_ignores_padding form a1 a2 b1 b2 c1 c2 can_open files :
  all_space a1 → all_space a2 → all_space b1 → all_space b2 →
  all_space c1 → all_space c2 →
  log_hours DATA_FOLDER nfd strptime float
    (padded form a1 a2 b1 b2 c1 c2) can_open files
  = log_hours DATA_FOLDER nfd strptime float form can_open files.
Proof.
  intros. unfold log_hours, padded. cbn [name_combobox date_entry hours_entry
    subject_combobox]. by rewrite !strip_padding.
Qed.

End PaddedForms.

(** ** The further properties on the example data *)

Lemma log_hours_append_only_witness :
  let files' :=
    (log_hours data_folder Reference.nfd_ascii Reference.strptime_dmy
       Reference.float_decimal alice_form true alice_files).1 in
  files' !! bob_path = alice_files !! bob_path
  ∧ ∃ new, files' !! alice_path
           = Some ([CSV_HEADER; alice_row (Qc_of_Z 7 / Qc_of_Z 2)] ++ new)
      ∧ (new = [] ∨ ∃ row, new = [row] ∧ is_data_row row ∧ row ≠ CSV_HEADER).
Proof.
  split.
  - apply (proj1 (log_hours_append_only data_folder Reference.nfd_ascii
                    Reference.strptime_dmy Reference.float_decimal
                    alice_form true alice_files bob_path)).
    by_evaluation.
  - apply (proj2 (log_hours_append_only data_folder Reference.nfd_ascii
                    Reference.strptime_dmy Reference.float_decimal
                    alice_form true alice_files alice_path)).
    by_evaluation.
Defined.

Lemma log_session_append_only_witness :
  ∃ new,
    log_session data_folder Reference.nfd_ascii Reference.strptime_dmy
      Reference.float_decimal three_calls alice_files !! alice_path
    = Some ([CSV_HEADER; alice_row (Qc_of_Z 7 / Qc_of_Z 2)] ++ new)
    ∧ Forall (λ row, is_data_row row ∧ row ≠ CSV_HEADER) new.
Proof. apply log_session_append_only. by_evaluation. Defined.


Example log_session_row_count_example :
  length (filter (λ m, logged_to data_folder Reference.nfd_ascii
                         alice_path m = true)
            (log_session_messages data_folder Reference.nfd_ascii
               Reference.strptime_dmy Reference.float_decimal
               three_calls no_files)) = 2%nat
  ∧ length <$> (log_session data_folder Reference.nfd_ascii
                  Reference.strptime_dmy Reference.float_decimal
                  three_calls no_files !! alice_path) = Some 3%nat.
Proof. split; by_evaluation. Qed.

Lemma logged_row_is_clean_witness :
  str "Alice" ≠ [] ∧ Py.strip (str "Alice") = str "Alice"
  ∧ subject_combobox alice_form ≠ []
  ∧ (Py.float_gt0 (Py.Finite (Qc_of_Z 7 / Qc_of_Z 2)) = true
     ∨ Py.Finite (Qc_of_Z 7 / Qc_of_Z 2) = Py.NaN)
  ∧ Reference.float_decimal (Py.strip (hours_entry alice_form))
    = Some (Py.Finite (Qc_of_Z 7 / Qc_of_Z 2)).
Proof.
  apply (logged_row_is_clean data_folder Reference.nfd_ascii
           Reference.strptime_dmy Reference.float_decimal
           alice_form true no_files).
  by_evaluation.
Defined.

Lemma name_box_invariant_witness :
  ∃ names',
    log_session_names data_folder Reference.nfd_ascii Reference.strptime_dmy
      Reference.float_decimal three_calls no_files (Some <$> [])
    = Some (Some <$> names')
    ∧ Sorted Py.str_le names' ∧ NoDup names'
    ∧ ∀ n, n ∈ names'
        ↔ n ∈ []
          ∨ ∃ hours, Success hours n
               ∈ log_session_messages data_folder Reference.nfd_ascii
                   Reference.strptime_dmy Reference.float_decimal
                   three_calls no_files.
Proof.
  apply (proj1 (name_box_invariant data_folder Reference.nfd_ascii
                  Reference.strptime_dmy Reference.float_decimal
                  three_calls no_files [] (Sorted_nil _) (NoDup_nil_2))).
Defined.

(** The list after the session of three calls; and the call that adds a
    name to the list [[nan]], left by [TypeError]. *)
Example name_box_after_session :
  log_session_names data_folder Reference.nfd_ascii Reference.strptime_dmy
    Reference.float_decimal three_calls no_files []
  = Some [Some (str "Alice"); Some (str "Bob")]
  ∧ log_hours_names data_folder Reference.nfd_ascii Reference.strptime_dmy
      Reference.float_decimal alice_form true no_files [None]
    = None.
Proof. split; by_evaluation. Qed.

(** The names read at start-up: texts in order; one NaN for each unit whose
    name cells are missing; [TypeError] for a text beside a NaN. *)
Example name_box_examples :
  _get_existing_names
    (Some [parsed_unit bob_unit; corrupt_unit; parsed_unit alice_unit])
  = Some [Some (str "Alice"); Some (str "Bob")]
  ∧ _get_existing_names (Some [parsed_unit nameless_unit]) = Some [None]
  ∧ _get_existing_names
      (Some [parsed_unit nameless_unit;
             (str "nb_hours.csv", Parsed nameless_unit.2)])
    = Some [None; None]
  ∧ _get_existing_names
      (Some [parsed_unit bob_unit; parsed_unit nameless_unit]) = None.
Proof. repeat split; by_evaluation. Qed.

Lemma name_box_order_independent_witness :
  _get_existing_names
    (Some [parsed_unit alice_unit; corrupt_unit; parsed_unit bob_unit])
  = _get_existing_names
      (Some [corrupt_unit; parsed_unit alice_unit; parsed_unit bob_unit]).
Proof. apply name_box_order_independent. simpl. apply perm_swap. Defined.

Lemma other_files_are_ignored_witness :
  show_dashboard data_folder
    (Some ([parsed_unit alice_unit] ++ [notes_file] ++ [parsed_unit bob_unit])) None
  = show_dashboard data_folder
      (Some ([parsed_unit alice_unit] ++ [parsed_unit bob_unit])) None
  ∧ _get_existing_names
      (Some ([parsed_unit alice_unit] ++ [notes_file] ++ [parsed_unit bob_unit]))
    = _get_existing_names
        (Some ([parsed_unit alice_unit] ++ [parsed_unit bob_unit])).
Proof. apply other_files_are_ignored. by_evaluation. Defined.

Lemma weekly_labels_are_mondays_witness :
  Pandas.weekday (Pandas.to_datetime (day_number 2024 12 30)) = Pandas.MON
  ∧ Pandas.normalize (Pandas.to_datetime (day_number 2024 12 30))
    = Pandas.to_datetime (day_number 2024 12 30).
Proof.
  apply (weekly_labels_are_mondays scenario _ (Qc_of_Z 8)). by_evaluation.
Defined.

Lemma weekday_record_in_own_week_witness :
  let r := mkRow (Some (str "Alice")) (Date (day_number 2025 1 8)) (Qc_of_Z 2)
             (Some (str "Meetings")) in
  let L := Pandas.to_datetime
             (row_date r - Pandas.weekday (Pandas.to_datetime (row_date r))) in
  (L, sum_hours (week_rows L scenario)) ∈ weekly_hours scenario
  ∧ r ∈ week_rows L scenario
  ∧ Pandas.weekday L = Pandas.MON
  ∧ L < Pandas.to_datetime (row_date r) < L + 7 * Pandas.NS_PER_DAY.
Proof. apply weekday_record_in_own_week; by_evaluation. Defined.

Lemma one_week_one_entry_witness :
  weekly_hours bob_unit.2
  = [(Pandas.to_datetime (day_number 2024 12 30), sum_hours bob_unit.2)].
Proof. apply one_week_one_entry; [discriminate|by_evaluation]. Defined.

Lemma weekly_entry_zero_iff_empty_witness :
  (0 ≤ 0)%Qc
  ∧ (0%Qc = 0%Qc
     ↔ week_rows (Pandas.to_datetime (day_number 2025 1 13)) gap_dataset = []).
Proof.
  apply (weekly_entry_zero_iff_empty gap_dataset); by_evaluation.
Defined.

Lemma grouped_sums_positive_witness :
  (0 < Qc_of_Z 5)%Qc ∧ (Qc_of_Z 5 ≤ sum_hours scenario)%Qc.
Proof.
  apply (grouped_sums_positive row_name scenario (str "Alice")); by_evaluation.
Defined.

Lemma log_hours_ignores_padding_witness :
  log_hours data_folder Reference.nfd_ascii Reference.strptime_dmy
    Reference.float_decimal
    (padded alice_form (str " ") (str "  ") [9%N] [] [] (str " ")) true no_files
  = log_hours data_folder Reference.nfd_ascii Reference.strptime_dmy
      Reference.float_decimal alice_form true no_files.
Proof. apply log_hours_ignores_padding; by_evaluation. Defined.
